(** * GlusterFS state functions of Salt: a shallow embedding

    The state module [salt/states/glusterfs.py] holds four reconcilers
    ([peered], [volume_present], [started], [add_volume_bricks]) and the
    deprecated alias [created].  Each of them builds a dictionary [ret] with
    the keys name, changes, comment and result while it talks to the
    execution modules reached through [__salt__], to [socket] and to
    [__opts__].

    The embedding keeps the dictionary as a finite map with string keys and
    turns every call that leaves the module into a node of a program tree.
    A tree is run against a handler, which answers the calls over a world of
    its own and may also raise; the run records every call with its answer. *)

From Stdlib Require Import Ascii String ZArith.
From stdpp Require Import gmap strings list fin_maps.

Local Open Scope string_scope.
Local Open Scope Z_scope.

(** ** Python values held by the returned dictionary *)

Inductive pyval : Type :=
| PNone
| PBool (b : bool)
| PStr (s : string)
| PList (l : list string).

#[global] Instance pyval_eq_dec : EqDecision pyval.
Proof. solve_decision. Defined.

(** An entry of [ret] is a plain value or a dictionary of plain values
    (the value stored under changes). *)
Inductive entry : Type :=
| Atom (v : pyval)
| Dict (d : gmap string pyval).

#[global] Instance entry_eq_dec : EqDecision entry.
Proof. solve_decision. Defined.

#[global] Instance entry_inhabited : Inhabited entry := populate (Atom PNone).

Abbreviation result := (gmap string entry).

(** Python truthiness, as used by [not ret['changes']]. *)
Definition truthy (e : entry) : bool :=
  match e with
  | Atom PNone => false
  | Atom (PBool b) => b
  | Atom (PStr s) => negb (bool_decide (s = ""))
  | Atom (PList l) => negb (bool_decide (l = []))
  | Dict d => negb (bool_decide (d = ∅))
  end.

(** The text of an entry that holds a string ([ret['comment']] always does). *)
Definition str_of (e : entry) : string :=
  match e with
  | Atom (PStr s) => s
  | _ => ""
  end.

Definition py_true : entry := Atom (PBool true).
Definition py_false : entry := Atom (PBool false).
Definition py_none : entry := Atom PNone.
Definition py_str (s : string) : entry := Atom (PStr s).

(** [{'new': n, 'old': o}] *)
Definition new_old (n o : pyval) : entry :=
  Dict (<["old" := o]> (<["new" := n]> ∅)).

(** [ret = {'name': name, 'changes': {}, 'comment': '', 'result': False}] *)
Definition ret0 (name : string) : result :=
  <["result" := py_false]>
    (<["comment" := py_str ""]>
       (<["changes" := Dict ∅]>
          (<["name" := py_str name]> ∅))).

(** ** Data returned by the execution module *)

(** Modelled from the spec: the record type of a volume as returned by
    [glusterfs.info] is declared in the execution module, which is not among
    the sources.  The spec gives a volume a lifecycle status and an ordered
    sequence of bricks, each with a path; the state module reads
    [['status']] through [int(...)] and [['bricks'].values()] and each
    brick's [['path']].  The status is kept as the integer [int] yields. *)
Record Brick : Type := { path : string }.

Record VolInfo : Type := {
  status : Z;
  bricks : list (string * Brick)
}.

(** [[brick['path'] for brick in vol['bricks'].values()]] *)
Definition brick_paths (vol : VolInfo) : list string :=
  map (fun kv => path (snd kv)) (bricks vol).

(** The result of [glusterfs.list_peers]: [None] or the known peers. *)
Definition peers_val (p : option (list string)) : pyval :=
  match p with
  | None => PNone
  | Some l => PList l
  end.

(** [peers and name in peers] *)
Definition peers_truthy (p : option (list string)) : bool :=
  match p with
  | None => false
  | Some l => negb (bool_decide (l = []))
  end.

Definition name_in_peers (name : string) (p : option (list string)) : bool :=
  match p with
  | None => false
  | Some l => bool_decide (name ∈ l)
  end.

(** ** Name validation *)

(** Modelled from the spec: [salt.utils.cloud.check_name] is not among the
    sources.  The spec has a name validated against the characters
    [[A-Za-z0-9._-]] and the state functions take the invalid branch when the
    call is truthy, so the model answers [true] exactly for a name with a
    character outside the class.  The class is read as the body of a regular
    expression bracket: [x-y] is a range, any other character stands for
    itself. *)
Fixpoint class_ranges (cls : list ascii) : list (ascii * ascii) :=
  match cls with
  | lo :: "-"%char :: hi :: rest => (lo, hi) :: class_ranges rest
  | c :: rest => (c, c) :: class_ranges rest
  | [] => []
  end.

Definition in_range (c : ascii) (r : ascii * ascii) : bool :=
  (N.leb (N_of_ascii (fst r)) (N_of_ascii c)
   && N.leb (N_of_ascii c) (N_of_ascii (snd r)))%bool.

Definition safe_char (safe_chars : string) (c : ascii) : bool :=
  existsb (in_range c) (class_ranges (list_ascii_of_string safe_chars)).

Definition check_name (name safe_chars : string) : bool :=
  existsb (fun c => negb (safe_char safe_chars c)) (list_ascii_of_string name).

(** ** Calls that leave the module *)

Inductive call : Type :=
| gethostbyname (name : string)
| network_ip_addrs
| glusterfs_list_peers
| glusterfs_peer (name : string)
| glusterfs_list_volumes
| glusterfs_create_volume (name : string) (bricks : list string)
    (stripe replica : option Z) (device_vg : bool) (transport : string)
    (start force : bool)
| glusterfs_info
| glusterfs_start_volume (name : string)
| glusterfs_add_volume_bricks (name : string) (bricks : list string)
| warn_until (version message : string).

#[global] Instance call_eq_dec : EqDecision call.
Proof. solve_decision. Defined.

(** The type of the answer to each call. *)
Definition resp (c : call) : Type :=
  match c with
  | gethostbyname _ => string
  | network_ip_addrs => list string
  | glusterfs_list_peers => option (list string)
  | glusterfs_peer _ => bool
  | glusterfs_list_volumes => list string
  | glusterfs_create_volume _ _ _ _ _ _ _ _ => bool
  | glusterfs_info => gmap string VolInfo
  | glusterfs_start_volume _ => bool
  | glusterfs_add_volume_bricks _ _ => bool
  | warn_until _ _ => unit
  end.

(** The state-changing actions and the read-only queries of live state. *)
Definition is_action (c : call) : bool :=
  match c with
  | glusterfs_peer _
  | glusterfs_create_volume _ _ _ _ _ _ _ _
  | glusterfs_start_volume _
  | glusterfs_add_volume_bricks _ _ => true
  | _ => false
  end.

Definition is_query (c : call) : bool :=
  match c with
  | gethostbyname _
  | network_ip_addrs
  | glusterfs_list_peers
  | glusterfs_list_volumes
  | glusterfs_info => true
  | _ => false
  end.

(** ** Programs *)

Inductive exn : Type :=
| KeyError (key : string)
| Fault (what : string).

Inductive outcome (A : Type) : Type :=
| Val (a : A)
| Exn (e : exn).
Arguments Val {A} a.
Arguments Exn {A} e.

Inductive prog (A : Type) : Type :=
| Return (a : A)
| Raise (e : exn)
| Call (c : call) (k : resp c → prog A).
Arguments Return {A} a.
Arguments Raise {A} e.
Arguments Call {A} c k.

Notation "x <- c ;; k" := (Call c (fun x => k))
  (at level 100, c at next level, right associativity).

Record Opts : Type := { test : bool }.

(** ** The state functions *)

(** [peered(name)], lines 26-88. *)
Definition peered (opts : Opts) (name : string) : prog result :=
  let ret := ret0 name in
  addr <- gethostbyname name ;;
  addrs <- network_ip_addrs ;;
  if bool_decide (addr ∈ addrs) then
    let ret := <["result" := py_true]> ret in
    let ret := <["comment" := py_str "Peering with localhost is not needed"]> ret in
    Return ret
  else
  peers <- glusterfs_list_peers ;;
  if peers_truthy peers && name_in_peers name peers then
    let ret := <["result" := py_true]> ret in
    let ret := <["comment" := py_str ("Host " ++ name ++ " already peered")]> ret in
    Return ret
  else
  if check_name name "a-zA-Z0-9._-" then
    let ret := <["comment" := py_str "Invalid characters in peer name."]> ret in
    let ret := <["result" := py_false]> ret in
    Return ret
  else
  if test opts then
    let ret := <["comment" := py_str ("Peer " ++ name ++ " will be added.")]> ret in
    let ret := <["result" := py_none]> ret in
    Return ret
  else
  peered <- glusterfs_peer name ;;
  if negb peered then
    let ret := <["comment" := py_str ("Failed to peer with " ++ name
                                       ++ ", please check logs for errors")]> ret in
    Return ret
  else
  newpeers <- glusterfs_list_peers ;;
  if peers_truthy newpeers && name_in_peers name newpeers then
    let ret := <["result" := py_true]> ret in
    let ret := <["comment" := py_str ("Host " ++ name ++ " successfully peered")]> ret in
    let ret := <["changes" := new_old (peers_val newpeers) (peers_val peers)]> ret in
    Return ret
  else
    let ret := <["comment" := py_str ("Host " ++ name ++
                 " was successfully peered but did not appear in the list of peers")]> ret in
    Return ret.

(** The tail of [volume_present] from [if start:] on (lines 157-178), where
    both branches of the creation phase meet. *)
Definition volume_present_start (opts : Opts) (name : string) (start : bool)
    (ret : result) : prog result :=
  if start then
    if test opts then
      let ret := <["comment" := py_str (str_of (ret !!! "comment")
                                         ++ " and will be started")]> ret in
      let ret := <["result" := py_none]> ret in
      Return ret
    else
    info <- glusterfs_info ;;
    match info !! name with
    | None => Raise (KeyError name)
    | Some vol =>
      if status vol =? 1 then
        let ret := <["result" := py_true]> ret in
        let ret := <["comment" := py_str (str_of (ret !!! "comment")
                                           ++ " and is started")]> ret in
        let ret := <["result" := py_true]> ret in
        Return ret
      else
        vol_started <- glusterfs_start_volume name ;;
        if vol_started then
          let ret := <["result" := py_true]> ret in
          let ret := <["comment" := py_str (str_of (ret !!! "comment")
                                             ++ " and is now started")]> ret in
          let ret :=
            if negb (truthy (ret !!! "changes")) then
              <["changes" := new_old (PStr "started") (PStr "stopped")]> ret
            else ret in
          let ret := <["result" := py_true]> ret in
          Return ret
        else
          let ret := <["comment" := py_str (str_of (ret !!! "comment")
                       ++ " but failed to start. Check logs for further information")]> ret in
          Return ret
    end
  else
    let ret := <["result" := py_true]> ret in
    Return ret.

(** [volume_present(name, bricks, stripe, replica, device_vg, transport,
    start, force)], lines 91-178. *)
Definition volume_present (opts : Opts) (name : string) (bricks : list string)
    (stripe replica : option Z) (device_vg : bool) (transport : string)
    (start force : bool) : prog result :=
  let ret := ret0 name in
  if check_name name "a-zA-Z0-9._-" then
    let ret := <["comment" := py_str "Invalid characters in volume name."]> ret in
    Return ret
  else
  volumes <- glusterfs_list_volumes ;;
  if negb (bool_decide (name ∈ volumes)) then
    if test opts then
      let comment := "Volume " ++ name ++ " will be created" in
      let comment := if start then comment ++ " and started" else comment in
      let ret := <["comment" := py_str comment]> ret in
      let ret := <["result" := py_none]> ret in
      Return ret
    else
    vol_created <- glusterfs_create_volume name bricks stripe replica
                     device_vg transport start force ;;
    if negb vol_created then
      let ret := <["comment" := py_str ("Creation of volume " ++ name ++
                   " failed. Check logs for further information")]> ret in
      Return ret
    else
    let old_volumes := volumes in
    volumes <- glusterfs_list_volumes ;;
    let ret :=
      if bool_decide (name ∈ volumes) then
        let ret := <["changes" := new_old (PList volumes) (PList old_volumes)]> ret in
        <["comment" := py_str ("Volume " ++ name ++ " is created")]> ret
      else ret in
    volume_present_start opts name start ret
  else
    let ret := <["comment" := py_str ("Volume " ++ name ++ " already exists")]> ret in
    volume_present_start opts name start ret.

(** The call [salt.utils.warn_until('Nitrogen', ...)] made by [created]. *)
Definition created_warning : call :=
  warn_until "Nitrogen"
    ("The glusterfs.creaged state is deprecated in favor of more descriptive"
     ++ " glusterfs.volume_present.").

(** [created], lines 181-190: it passes whatever arguments it receives on
    to [volume_present]. *)
Definition created (opts : Opts) (name : string) (bricks : list string)
    (stripe replica : option Z) (device_vg : bool) (transport : string)
    (start force : bool) : prog result :=
  _ <- created_warning ;;
  volume_present opts name bricks stripe replica device_vg transport start force.

(** [started(name)], lines 193-234.  The successful start stores its
    dictionary under the key change. *)
Definition started (opts : Opts) (name : string) : prog result :=
  let ret := ret0 name in
  volinfo <- glusterfs_info ;;
  match volinfo !! name with
  | None =>
    let ret := <["result" := py_false]> ret in
    let ret := <["comment" := py_str ("Volume " ++ name ++ " does not exist")]> ret in
    Return ret
  | Some vol =>
    if status vol =? 1 then
      let ret := <["comment" := py_str ("Volume " ++ name ++ " is already started")]> ret in
      let ret := <["result" := py_true]> ret in
      Return ret
    else if test opts then
      let ret := <["comment" := py_str ("Volume " ++ name ++ " will be started")]> ret in
      let ret := <["result" := py_none]> ret in
      Return ret
    else
    vol_started <- glusterfs_start_volume name ;;
    if vol_started then
      let ret := <["result" := py_true]> ret in
      let ret := <["comment" := py_str ("Volume " ++ name ++ " is started")]> ret in
      let ret := <["change" := new_old (PStr "started") (PStr "stopped")]> ret in
      Return ret
    else
      let ret := <["result" := py_false]> ret in
      let ret := <["comment" := py_str "Failed to start volume"]> ret in
      Return ret
  end.

(** [add_volume_bricks(name, bricks)], lines 237-291.  [__opts__] is never
    read. *)
Definition add_volume_bricks (opts : Opts) (name : string)
    (bricks : list string) : prog result :=
  let ret := ret0 name in
  volinfo <- glusterfs_info ;;
  match volinfo !! name with
  | None =>
    let ret := <["comment" := py_str ("Volume " ++ name ++
                 " does not exist, cannot add bricks into it")]> ret in
    Return ret
  | Some vol =>
    if negb (status vol =? 1) then
      let ret := <["comment" := py_str ("Volume " ++ name ++
                   " is not started, cannot add bricks into it")]> ret in
      Return ret
    else
    let current_bricks := brick_paths vol in
    if bool_decide
         ((list_to_set bricks : gset string) ∖ list_to_set current_bricks = ∅) then
      let ret := <["result" := py_true]> ret in
      let ret := <["comment" := py_str ("Bricks already added in volume " ++ name)]> ret in
      Return ret
    else
    bricks_added <- glusterfs_add_volume_bricks name bricks ;;
    if bricks_added then
      let ret := <["result" := py_true]> ret in
      let ret := <["comment" := py_str ("Bricks successfully added to volume " ++ name)]> ret in
      info <- glusterfs_info ;;
      match info !! name with
      | None => Raise (KeyError name)
      | Some vol' =>
        let new_bricks := brick_paths vol' in
        let ret := <["changes" := new_old (PList new_bricks) (PList current_bricks)]> ret in
        Return ret
      end
    else
      let ret := <["comment" := py_str ("Adding bricks to volume " ++ name ++ " failed")]> ret in
      Return ret
  end.

(** ** Running a program *)

(** One call together with the answer it received. *)
Record event : Type := Ev { ev_call : call; ev_resp : outcome (resp ev_call) }.

(** A handler answers every call over a world [W]: it returns a value or
    raises, and leaves a new world. *)
Definition handler (W : Type) : Type := ∀ c : call, W → outcome (resp c) * W.

(** What a run yields: the value returned or the exception that escaped (the
    module has no [try]), the final world and the calls made, oldest first. *)
Record run_result (W A : Type) : Type := Ran {
  outcome_of : outcome A;
  world_of : W;
  trace_of : list event
}.
Arguments Ran {W A} _ _ _.
Arguments outcome_of {W A} _.
Arguments world_of {W A} _.
Arguments trace_of {W A} _.

Definition log {W A} (ev : event) (r : run_result W A) : run_result W A :=
  Ran (outcome_of r) (world_of r) (ev :: trace_of r).

Fixpoint run {W A} (h : handler W) (p : prog A) (w : W) : run_result W A :=
  match p with
  | Return a => Ran (Val a) w []
  | Raise e => Ran (Exn e) w []
  | Call c k =>
    match h c w with
    | (Val x, w') => log (Ev c (Val x)) (run h (k x) w')
    | (Exn e, w') => Ran (Exn e) w' [Ev c (Exn e)]
    end
  end.

Definition calls {W A} (r : run_result W A) : list call :=
  map ev_call (trace_of r).

(** ** The outcome of a reconciler call, in the words of the spec *)

Inductive Status : Type := Converged | WouldChange | Unchanged | Failed.

#[global] Instance Status_eq_dec : EqDecision Status.
Proof. solve_decision. Defined.

(** The source has the three values [True], [None] and [False] under result.
    [False] is Failed and [None] is WouldChange; [True] is Converged when a
    state-changing action was taken during the call and Unchanged when none
    was. *)
Definition status_of (ret : result) (cs : list call) : Status :=
  match ret !! "result" with
  | Some (Atom (PBool true)) =>
    if existsb is_action cs then Converged else Unchanged
  | Some (Atom PNone) => WouldChange
  | _ => Failed
  end.

(** [ret['changes']] is a non-empty dictionary. *)
Definition has_changes (ret : result) : bool := truthy (ret !!! "changes").

(** ** A scripted handler

    The world is the list of answers still to be given; each call takes the
    next one.  The deprecation warning is answered without using the script. *)

Inductive answer : Type :=
| AStr (s : string)
| AStrs (l : list string)
| APeers (p : option (list string))
| ABool (b : bool)
| AInfo (m : gmap string VolInfo)
| ARaise (e : exn).

Definition unexpected {A} : outcome A := Exn (Fault "unexpected answer").

Definition answer_as (c : call) (a : answer) : outcome (resp c) :=
  match c return outcome (resp c) with
  | gethostbyname _ =>
    match a with AStr s => Val s | ARaise e => Exn e | _ => unexpected end
  | network_ip_addrs =>
    match a with AStrs l => Val l | ARaise e => Exn e | _ => unexpected end
  | glusterfs_list_peers =>
    match a with APeers p => Val p | ARaise e => Exn e | _ => unexpected end
  | glusterfs_list_volumes =>
    match a with AStrs l => Val l | ARaise e => Exn e | _ => unexpected end
  | glusterfs_info =>
    match a with AInfo m => Val m | ARaise e => Exn e | _ => unexpected end
  | glusterfs_peer _
  | glusterfs_create_volume _ _ _ _ _ _ _ _
  | glusterfs_start_volume _
  | glusterfs_add_volume_bricks _ _ =>
    match a with ABool b => Val b | ARaise e => Exn e | _ => unexpected end
  | warn_until _ _ => Val tt
  end.

Definition scripted : handler (list answer) :=
  fun c script =>
    match c, script with
    | warn_until _ _, _ => (answer_as c (ABool true), script)
    | _, a :: rest => (answer_as c a, rest)
    | _, [] => (Exn (Fault "script exhausted"), [])
    end.

Definition dry : Opts := {| test := true |}.
Definition live : Opts := {| test := false |}.

(** A volume record with the given status and brick paths. *)
Definition vol (st : Z) (paths : list string) : VolInfo :=
  {| status := st;
     bricks := map (fun p => (p, {| path := p |})) paths |}.

(** ** Properties of a run *)

(** No call of the tree satisfies [P], whatever the answers are. *)
Fixpoint never_calls {A} (P : call → bool) (p : prog A) : Prop :=
  match p with
  | Call c k => P c = false ∧ ∀ x, never_calls P (k x)
  | _ => True
  end.


(** The changes are non-empty exactly for a Converged result. *)
Definition changes_iff_converged {W} (r : run_result W result) : Prop :=
  ∀ ret, outcome_of r = Val ret →
    has_changes ret = true ↔ status_of ret (calls r) = Converged.

(** No state-changing action was taken and the result is not Converged. *)
Definition dry_run_pure {W} (r : run_result W result) : Prop :=
  existsb is_action (calls r) = false
  ∧ ∀ ret, outcome_of r = Val ret → status_of ret (calls r) ≠ Converged.




(** The volume info an event carries, when it is an answered query of it. *)
Definition info_answer (ev : event) : option (gmap string VolInfo) :=
  match ev with
  | Ev c r =>
    match c return outcome (resp c) → option (gmap string VolInfo) with
    | glusterfs_info =>
      fun r => match r with Val m => Some m | Exn _ => None end
    | _ => fun _ => None
    end r
  end.

(** The volume info queried last, when the last call was that query. *)
Definition last_info {W A} (r : run_result W A) : option (gmap string VolInfo) :=
  match last (trace_of r) with
  | Some ev => info_answer ev
  | None => None
  end.




(** The volume is listed and created, the bricks are added, and the volume
    info queried after the action lacks the volume. *)
Definition bricks_added_then_no_info : run_result (list answer) result :=
  run scripted
    (add_volume_bricks live "v1" ["h1:/b1"; "h2:/b2"])
    [AInfo {[ "v1" := {| status := 1; bricks := [] |} ]}; ABool true; AInfo ∅].


(** The last call made was a query of live state. *)
Definition requeried (cs : list call) : bool :=
  match last cs with
  | Some c => is_query c
  | None => false
  end.

(** A Converged result was preceded by a re-query. *)
Definition converged_after_requery {W} (r : run_result W result) : Prop :=
  ∀ ret, outcome_of r = Val ret → status_of ret (calls r) = Converged →
    requeried (calls r) = true.

(** The comment of a result. *)
Definition comment_of (ret : result) : string := str_of (ret !!! "comment").


(** [bricks ⊆ current] on path strings, as the source tests it. *)
Definition bricks_present (bricks current : list string) : bool :=
  bool_decide ((list_to_set bricks : gset string) ∖ list_to_set current = ∅).

(** [new] holds every path of [current] and of [bricks]. *)
Definition superset_of_both (new current bricks : list string) : Prop :=
  (∀ p, p ∈ current → p ∈ new) ∧ (∀ p, p ∈ bricks → p ∈ new).

(** ** Concrete runs against the scripted handler *)

Definition both_bricks : list string := ["h1:/b1"; "h2:/b2"].

(** Creation confirmed, then the start action reports failure. *)
Definition created_then_start_fails : run_result (list answer) result :=
  run scripted
    (volume_present live "v1" both_bricks None None false "tcp" true false)
    [AStrs []; ABool true; AStrs ["v1"];
     AInfo {[ "v1" := vol 0 both_bricks ]}; ABool false].

(** A stopped volume is added bricks under the test flag. *)
Definition bricks_added_under_test : run_result (list answer) result :=
  run scripted
    (add_volume_bricks dry "v1" both_bricks)
    [AInfo {[ "v1" := vol 1 ["h1:/b1"] ]}; ABool true;
     AInfo {[ "v1" := vol 1 both_bricks ]}].

(** A stopped volume is started. *)
Definition stopped_volume_started : run_result (list answer) result :=
  run scripted (started live "v1")
    [AInfo {[ "v1" := vol 0 both_bricks ]}; ABool true].



(** The creation reports success, the volume list still lacks the volume. *)
Definition created_but_not_listed : run_result (list answer) result :=
  run scripted
    (volume_present live "v1" both_bricks None None false "tcp" false false)
    [AStrs []; ABool true; AStrs []].

(** The peer-add reports success, the peer list still lacks the peer. *)
Definition peered_but_not_listed : run_result (list answer) result :=
  run scripted (peered live "two")
    [AStr "10.0.0.2"; AStrs ["10.0.0.1"]; APeers None; ABool true;
     APeers (Some ["three"])].



(** The add action reports success, the volume info is unchanged. *)
Definition bricks_not_added : run_result (list answer) result :=
  run scripted
    (add_volume_bricks live "v1" both_bricks)
    [AInfo {[ "v1" := vol 1 ["h1:/b1"] ]}; ABool true;
     AInfo {[ "v1" := vol 1 ["h1:/b1"] ]}].

(** ** Further properties of a run *)

(** [ret['changes']['new']] and [ret['changes']['old']], when present. *)
Definition changes_new (ret : result) : option pyval :=
  match ret !! "changes" with
  | Some (Dict d) => d !! "new"
  | _ => None
  end.

Definition changes_old (ret : result) : option pyval :=
  match ret !! "changes" with
  | Some (Dict d) => d !! "old"
  | _ => None
  end.

(** A result that is not Converged carries no changes. *)
Definition changes_only_if_converged {W} (r : run_result W result) : Prop :=
  ∀ ret, outcome_of r = Val ret →
    status_of ret (calls r) ≠ Converged → has_changes ret = false.

(** Changes and status of [volume_present].  Non-empty changes come with a
    Converged result, or with the Failed result of the one run in which the
    creation [ev_create] was confirmed by the volumes listed after it and the
    start action then reported failure; that result keeps the two volume
    lists.  A Converged result has non-empty changes, unless the volumes
    listed after the creation lack the volume. *)
Definition volume_present_changes {W} (name : string) (ev_create : event)
    (r : run_result W result) : Prop :=
  ∀ ret, outcome_of r = Val ret →
    (has_changes ret = true →
     status_of ret (calls r) = Converged
     ∨ (status_of ret (calls r) = Failed
        ∧ ∃ old vols m,
            trace_of r =
              [Ev glusterfs_list_volumes (Val old); ev_create;
               Ev glusterfs_list_volumes (Val vols);
               Ev glusterfs_info (Val m);
               Ev (glusterfs_start_volume name) (Val false)]
            ∧ name ∈ vols
            ∧ changes_new ret = Some (PList vols)
            ∧ changes_old ret = Some (PList old)))
    ∧ (status_of ret (calls r) = Converged → has_changes ret = false →
       ∃ old vols post,
         trace_of r =
           Ev glusterfs_list_volumes (Val old) :: ev_create
           :: Ev glusterfs_list_volumes (Val vols) :: post
         ∧ name ∉ vols).

(** A Converged result of [peered] follows a re-query of the peers that
    holds the peer, and reports that list as new. *)
Definition peer_confirmed {W} (name : string) (r : run_result W result) : Prop :=
  ∀ ret, outcome_of r = Val ret → status_of ret (calls r) = Converged →
    ∃ newpeers,
      last (trace_of r) = Some (Ev glusterfs_list_peers (Val newpeers))
      ∧ name_in_peers name newpeers = true
      ∧ changes_new ret = Some (peers_val newpeers).

(** A volume list reported as new was the answer to the query made right
    after the creation [ev_create], and holds the volume. *)
Definition creation_confirmed {W} (name : string) (ev_create : event)
    (r : run_result W result) : Prop :=
  ∀ ret vols, outcome_of r = Val ret → changes_new ret = Some (PList vols) →
    name ∈ vols
    ∧ ∃ old post,
        trace_of r =
          Ev glusterfs_list_volumes (Val old) :: ev_create
          :: Ev glusterfs_list_volumes (Val vols) :: post
        ∧ changes_old ret = Some (PList old).

(** A Converged result of [started] ends with the start action. *)
Definition start_unconfirmed {W} (name : string) (r : run_result W result) : Prop :=
  ∀ ret, outcome_of r = Val ret → status_of ret (calls r) = Converged →
    last (trace_of r) = Some (Ev (glusterfs_start_volume name) (Val true)).

(** If the start action was taken, it was the last call made. *)
Definition start_action_is_last {W} (name : string)
    (r : run_result W result) : Prop :=
  ∀ ret, outcome_of r = Val ret →
    existsb (fun c => bool_decide (c = glusterfs_start_volume name)) (calls r) = true →
    ∃ b, last (trace_of r) = Some (Ev (glusterfs_start_volume name) (Val b)).

(** A Converged result of [add_volume_bricks] follows a re-query of the
    volume info and reports the bricks found there as new. *)
Definition bricks_requeried {W} (name : string) (r : run_result W result) : Prop :=
  ∀ ret, outcome_of r = Val ret → status_of ret (calls r) = Converged →
    ∃ m v,
      last (trace_of r) = Some (Ev glusterfs_info (Val m))
      ∧ m !! name = Some v
      ∧ changes_new ret = Some (PList (brick_paths v)).



(** ** Module loading *)

(** [__virtual__()], lines 19-23, over the names available in [__salt__]:
    the module name, or [False]. *)
Definition __virtual__ (salt : gset string) : entry :=
  if bool_decide ("glusterfs.list_volumes" ∈ salt) then py_str "glusterfs"
  else py_false.

(** ** The shape of a returned dictionary *)

(** The four keys every state function sets up. *)
Definition result_keys : gset string :=
  {[ "name"; "changes"; "comment"; "result" ]}.

(** The dictionary names the resource, and holds a dictionary under changes,
    a string under comment and [True], [False] or [None] under result. *)
Definition well_typed (name : string) (ret : result) : Prop :=
  ret !! "name" = Some (py_str name)
  ∧ (∃ d, ret !! "changes" = Some (Dict d))
  ∧ (∃ s, ret !! "comment" = Some (py_str s))
  ∧ (∃ v, ret !! "result" = Some (Atom v)
          ∧ (v = PBool true ∨ v = PBool false ∨ v = PNone)).

(** A returned dictionary is well typed and has exactly the four keys. *)
Definition four_keys {W} (name : string) (r : run_result W result) : Prop :=
  ∀ ret, outcome_of r = Val ret →
    well_typed name ret ∧ dom ret = result_keys.

(** The same, but a Converged result has the fifth key change. *)
Definition four_keys_or_change {W} (name : string)
    (r : run_result W result) : Prop :=
  ∀ ret, outcome_of r = Val ret →
    well_typed name ret
    ∧ ((dom ret = result_keys ∧ status_of ret (calls r) ≠ Converged)
       ∨ (dom ret = result_keys ∪ {[ "change" ]}
          ∧ status_of ret (calls r) = Converged)).

(** The actions among the calls, in the order taken. *)
Definition actions_of (cs : list call) : list call := List.filter is_action cs.

(** A WouldChange result is returned under the test flag only. *)
Definition would_change_needs_test {W} (opts : Opts)
    (r : run_result W result) : Prop :=
  ∀ ret, outcome_of r = Val ret → status_of ret (calls r) = WouldChange →
    test opts = true.

(** The comment of a returned dictionary is not empty. *)
Definition comment_populated {W} (r : run_result W result) : Prop :=
  ∀ ret, outcome_of r = Val ret → comment_of ret ≠ "".

(** The add action was taken only on a volume that the first query showed
    started and short of a requested brick. *)
Definition add_was_due {W} (name : string) (bricks : list string)
    (r : run_result W result) : Prop :=
  existsb is_action (calls r) = true →
  ∃ m v, head (trace_of r) = Some (Ev glusterfs_info (Val m))
         ∧ m !! name = Some v
         ∧ status v = 1
         ∧ ¬ (∀ p, p ∈ bricks → p ∈ brick_paths v).

(** The calls that only the start phase of [volume_present] makes. *)
Definition start_phase_call (c : call) : bool :=
  match c with
  | glusterfs_info | glusterfs_start_volume _ => true
  | _ => false
  end.

(** * The SELinux execution module

    [salt/modules/selinux.py]: the functions are embedded in a module of
    their own, with the calls that leave the file (the file system, the
    command runner, [salt.utils.which]) as nodes of a program tree.  A call
    may raise, and [getenforce] catches, so a continuation receives the
    answer or the exception. *)
Module Selinux.

(** ** Strings, with the methods of a Python 2 byte string *)

(** The characters [str.split()] and [str.strip()] treat as whitespace:
    tab, line feed, vertical tab, form feed, carriage return and space. *)
Definition is_space (c : ascii) : bool :=
  match N_of_ascii c with
  | 9 | 10 | 11 | 12 | 13 | 32 => true
  | _ => false
  end%N.

Fixpoint lstrip (s : string) : string :=
  match s with
  | String c s' => if is_space c then lstrip s' else s
  | EmptyString => EmptyString
  end.

Fixpoint rstrip (s : string) : string :=
  match s with
  | String c s' =>
    match rstrip s' with
    | EmptyString => if is_space c then EmptyString else String c EmptyString
    | r => String c r
    end
  | EmptyString => EmptyString
  end.

(** [s.strip()] *)
Definition strip (s : string) : string := lstrip (rstrip s).

(** [s.split()]: the maximal runs of characters that are not whitespace. *)
Fixpoint split (s : string) : list string :=
  match s with
  | EmptyString => []
  | String c s' =>
    if is_space c then split s'
    else
      match s' with
      | EmptyString => [String c EmptyString]
      | String c' _ =>
        if is_space c' then String c EmptyString :: split s'
        else
          match split s' with
          | t :: ts => String c t :: ts
          | [] => [String c EmptyString]
          end
      end
  end.

(** [s.splitlines()]: lines end at a line feed, a carriage return, or a
    carriage return followed by a line feed; the ends are dropped. *)
Fixpoint splitlines (s : string) : list string :=
  match s with
  | EmptyString => []
  | String c s' =>
    if Ascii.eqb c "010" then EmptyString :: splitlines s'
    else if Ascii.eqb c "013" then
      match s' with
      | String c' s'' =>
        if Ascii.eqb c' "010" then EmptyString :: splitlines s''
        else EmptyString :: splitlines s'
      | EmptyString => [EmptyString]
      end
    else
      match splitlines s' with
      | l :: ls => String c l :: ls
      | [] => [String c EmptyString]
      end
  end.

(** [s.lower()] *)
Definition lower_char (c : ascii) : ascii :=
  let n := N_of_ascii c in
  if (N.leb 65 n && N.leb n 90)%bool then ascii_of_N (n + 32) else c.

Fixpoint lower (s : string) : string :=
  match s with
  | String c s' => String (lower_char c) (lower s')
  | EmptyString => EmptyString
  end.

(** [s[1:]] and [s[:-1]] *)
Definition drop_first (s : string) : string :=
  match s with
  | String _ s' => s'
  | EmptyString => EmptyString
  end.

Fixpoint drop_last (s : string) : string :=
  match s with
  | String c s' =>
    match s' with
    | EmptyString => EmptyString
    | _ => String c (drop_last s')
    end
  | EmptyString => EmptyString
  end.

(** [' '.join(l)] *)
Fixpoint join_spaces (l : list string) : string :=
  match l with
  | [] => ""
  | [s] => s
  | s :: rest => s ++ " " ++ join_spaces rest
  end.

Definition starts_with_slash (s : string) : bool :=
  match s with
  | String c _ => Ascii.eqb c "/"
  | EmptyString => false
  end.

Fixpoint ends_with_slash (s : string) : bool :=
  match s with
  | String c EmptyString => Ascii.eqb c "/"
  | String _ s' => ends_with_slash s'
  | EmptyString => false
  end.

(** [os.path.join(a, b)] of [posixpath], for two strings. *)
Definition path_join (a b : string) : string :=
  if starts_with_slash b then b
  else if (bool_decide (a = "") || ends_with_slash a)%bool then a ++ b
  else a ++ "/" ++ b.

(** ** Exceptions and calls *)

Inductive exn_kind : Type :=
| IOError | OSError | AttributeError | KeyError | IndexError
| UnboundLocalError | CommandExecutionError | OtherError.

#[global] Instance exn_kind_eq_dec : EqDecision exn_kind.
Proof. solve_decision. Defined.

(** An exception with the text [str(exc)] gives. *)
Record pyexn : Type := PyExn { kind : exn_kind; message : string }.

Inductive answer (A : Type) : Type :=
| Ok (a : A)
| Err (e : pyexn).
Arguments Ok {A} a.
Arguments Err {A} e.

Inductive call : Type :=
| which (cmd : string)
| isdir (p : string)
| isfile (p : string)
| read_first_line (p : string)
| write_file (p data : string)
| cmd_run (cmd : string)
| cmd_retcode (cmd : string) (python_shell : option bool).

(** [salt.utils.which] gives a path or [None]; the file tests give a
    boolean; [fopen(p, 'r')] with [readline()] gives the first line;
    [fopen(p, 'w')] with [write(data)] gives nothing; [cmd.run] gives the
    output and [cmd.retcode] the exit code. *)
Definition resp (c : call) : Type :=
  match c with
  | which _ => option string
  | isdir _ => bool
  | isfile _ => bool
  | read_first_line _ => string
  | write_file _ _ => unit
  | cmd_run _ => string
  | cmd_retcode _ _ => Z
  end.

(** The cache of [decorators.memoize] for the one argument tuple [()] of
    [selinux_fs_path]: nothing yet, or the value a completed call returned. *)
Definition cache : Type := option (option string).

(** A program calls out, or reads and writes the cache, which belongs to the
    module and outlives an exception. *)
Inductive prog (A : Type) : Type :=
| Return (a : A)
| Raise (e : pyexn)
| Call (c : call) (k : answer (resp c) → prog A)
| GetMemo (k : cache → prog A)
| SetMemo (v : option string) (k : prog A).
Arguments Return {A} a.
Arguments Raise {A} e.
Arguments Call {A} c k.
Arguments GetMemo {A} k.
Arguments SetMemo {A} v k.

(** A call outside any [try]: an exception it raises goes on. *)
Definition perform {A} (c : call) (k : resp c → prog A) : prog A :=
  Call c (fun a => match a with Ok x => k x | Err e => Raise e end).

Fixpoint bind {A B} (p : prog A) (f : A → prog B) : prog B :=
  match p with
  | Return a => f a
  | Raise e => Raise e
  | Call c k => Call c (fun a => bind (k a) f)
  | GetMemo k => GetMemo (fun m => bind (k m) f)
  | SetMemo v k => SetMemo v (bind k f)
  end.

(** [try: p  except (kinds) as exc: on_exc exc] *)
Fixpoint try_except {A} (p : prog A) (kinds : list exn_kind)
    (on_exc : pyexn → prog A) : prog A :=
  match p with
  | Return a => Return a
  | Raise e => if bool_decide (kind e ∈ kinds) then on_exc e else Raise e
  | Call c k => Call c (fun a => try_except (k a) kinds on_exc)
  | GetMemo k => GetMemo (fun m => try_except (k m) kinds on_exc)
  | SetMemo v k => SetMemo v (try_except k kinds on_exc)
  end.

Record event : Type := Ev { ev_call : call; ev_answer : answer (resp ev_call) }.

Definition handler (W : Type) : Type := ∀ c : call, W → answer (resp c) * W.

(** What a run yields: the value returned or the exception that escaped, the
    final world, the final cache and the calls made, oldest first. *)
Record ran (W A : Type) : Type := Ran {
  outcome_of : answer A;
  world_of : W;
  memo_of : cache;
  trace_of : list event
}.
Arguments Ran {W A} _ _ _ _.
Arguments outcome_of {W A} _.
Arguments world_of {W A} _.
Arguments memo_of {W A} _.
Arguments trace_of {W A} _.

Fixpoint run {W A} (h : handler W) (p : prog A) (w : W) (memo : cache) :
    ran W A :=
  match p with
  | Return a => Ran (Ok a) w memo []
  | Raise e => Ran (Err e) w memo []
  | Call c k =>
    let aw := h c w in
    let r := run h (k (fst aw)) (snd aw) memo in
    Ran (outcome_of r) (world_of r) (memo_of r) (Ev c (fst aw) :: trace_of r)
  | GetMemo k => run h (k memo) w memo
  | SetMemo v k => run h k w (Some v)
  end.

Definition calls {W A} (r : ran W A) : list call := map ev_call (trace_of r).

(** ** The functions *)

(** What [__virtual__] returns: the module name, or [(False, reason)]. *)
Inductive virtual : Type :=
| Loaded (name : string)
| Unavailable (reason : string).

(** The truth value of a path that may be [None]. *)
Definition path_truthy (p : option string) : bool :=
  match p with
  | Some s => negb (bool_decide (s = ""))
  | None => false
  end.

(** The loop of [__virtual__] over the required commands, lines 36-38:
    [None] when all are found, or the value to return. *)
Fixpoint check_cmds (cmds : list string) : prog (option virtual) :=
  match cmds with
  | [] => Return None
  | cmd :: rest =>
    perform (which cmd) (fun found =>
      if negb (path_truthy found)
      then Return (Some (Unavailable (cmd ++ " is not in the path")))
      else check_cmds rest)
  end.

(** The loop of [selinux_fs_path] over the directories, lines 59-63. *)
Fixpoint probe (dirs : list string) : prog (option string) :=
  match dirs with
  | [] => Return None
  | directory :: rest =>
    perform (isdir directory) (fun is_dir =>
      if is_dir then
        perform (isfile (path_join directory "enforce")) (fun is_file =>
          if is_file then Return (Some directory) else probe rest)
      else probe rest)
  end.

(** Modelled from the spec: [salt.utils.decorators.memoize] is not among the
    sources.  The spec names the memoization of the file system path and the
    source says "Cache the SELinux directory to not look it up over and
    over": the first call that returns stores its value, later calls return
    the stored value without running the body.

    [selinux_fs_path()], lines 46-63. *)
Definition selinux_fs_path : prog (option string) :=
  GetMemo (fun memo =>
    match memo with
    | Some v => Return v
    | None =>
      bind (probe ["/sys/fs/selinux"; "/selinux"])
           (fun v => SetMemo v (Return v))
    end).

(** [__virtual__()], lines 27-42, with [__grains__] as a dictionary. *)
Definition __virtual__ (grains : gmap string string) : prog virtual :=
  bind (check_cmds ["semanage"; "setsebool"; "semodule"]) (fun missing =>
    match missing with
    | Some v => Return v
    | None =>
      match grains !! "kernel" with
      | None => Raise (PyExn KeyError "'kernel'")
      | Some kernel =>
        if bool_decide (kernel = "Linux") then
          bind selinux_fs_path (fun p =>
            if path_truthy p then Return (Loaded "selinux")
            else Return (Unavailable
                           "Module only works on Linux with selinux installed"))
        else
          Return (Unavailable "Module only works on Linux with selinux installed")
      end
    end).

(** [os.path.join(selinux_fs_path(), 'enforce')]: with [None] for the path,
    [posixpath.join] of Python 2 raises the [AttributeError] that the
    [except] clause of [getenforce] names. *)
Definition enforce_path (p : option string) : prog string :=
  match p with
  | Some d => Return (path_join d "enforce")
  | None =>
    Raise (PyExn AttributeError "'NoneType' object has no attribute 'endswith'")
  end.

(** [getenforce()], lines 66-85. *)
Definition getenforce : prog string :=
  try_except
    (bind selinux_fs_path (fun p =>
     bind (enforce_path p) (fun enforce =>
     perform (read_first_line enforce) (fun line =>
       if bool_decide (strip line = "0") then Return "Permissive"
       else Return "Enforcing"))))
    [IOError; OSError; AttributeError]
    (fun exc =>
       Raise (PyExn CommandExecutionError
                ("Could not read SELinux enforce file: " ++ message exc))).

(** The argument of [setenforce]: a string, an integer (a boolean is one),
    or another object, of which only [str(mode)] is used. *)
Inductive mode_arg : Type :=
| ModeStr (s : string)
| ModeInt (n : Z)
| ModeOther (repr : string).

(** Lines 98-111 of [setenforce]: the text to write, or the value to
    return. *)
Definition enforce_mode (mode : mode_arg) : string + string :=
  match mode with
  | ModeStr s =>
    if bool_decide (lower s = "enforcing") then inl "1"
    else if bool_decide (lower s = "permissive") then inl "0"
    else inr ("Invalid mode " ++ s)
  | ModeInt n => if bool_decide (n ≠ 0) then inl "1" else inl "0"
  | ModeOther repr => inr ("Invalid mode " ++ repr)
  end.

(** [setenforce(mode)], lines 88-119. *)
Definition setenforce (mode : mode_arg) : prog string :=
  match enforce_mode mode with
  | inr invalid => Return invalid
  | inl data =>
    bind selinux_fs_path (fun p =>
    bind (enforce_path p) (fun enforce =>
    bind (try_except
            (perform (write_file enforce data) (fun _ => Return tt))
            [IOError; OSError]
            (fun exc =>
               Raise (PyExn CommandExecutionError
                        ("Could not write SELinux enforce file: "
                         ++ message exc))))
         (fun _ => getenforce)))
  end.

(** [setsebool(boolean, value, persist)], lines 135-149. *)
Definition setsebool (boolean value : string) (persist : bool) : prog bool :=
  let cmd :=
    if persist then "setsebool -P " ++ boolean ++ " " ++ value
    else "setsebool " ++ boolean ++ " " ++ value in
  perform (cmd_retcode cmd (Some false)) (fun rc =>
    Return (negb (bool_decide (rc ≠ 0)))).

(** The argument [pairs] of [setsebools]: a dictionary, given by its items in
    the order of iteration, or something else. *)
Inductive pairs_arg : Type :=
| PairsDict (items : list (string * string))
| PairsOther.

(** What [setsebools] returns: [{}] or a boolean. *)
Inductive setsebools_result : Type :=
| EmptyDict
| Ran_ok (ok : bool).

(** The loop of [setsebools], lines 168-169. *)
Fixpoint add_pairs (cmd : string) (items : list (string * string)) : string :=
  match items with
  | [] => cmd
  | (boolean, value) :: rest =>
    add_pairs (cmd ++ " " ++ boolean ++ "=" ++ value) rest
  end.

(** [setsebools(pairs, persist)], lines 152-170. *)
Definition setsebools (pairs : pairs_arg) (persist : bool) :
    prog setsebools_result :=
  match pairs with
  | PairsOther => Return EmptyDict
  | PairsDict items =>
    let cmd := if persist then "setsebool -P " else "setsebool " in
    let cmd := add_pairs cmd items in
    perform (cmd_retcode cmd (Some false)) (fun rc =>
      Return (Ran_ok (negb (bool_decide (rc ≠ 0)))))
  end.

(** An entry of [list_sebool]. *)
Record sebool : Type := {
  State : string;
  Default : string;
  Description : string
}.

(** [comps[i]], raising as a list index out of range does. *)
Definition item (comps : list string) (i : nat) : prog string :=
  match comps !! i with
  | Some s => Return s
  | None => Raise (PyExn IndexError "list index out of range")
  end.

(** The loop of [list_sebool], lines 186-192. *)
Fixpoint sebool_lines (lines : list string) (ret : gmap string sebool) :
    prog (gmap string sebool) :=
  match lines with
  | [] => Return ret
  | line :: rest =>
    if negb (negb (bool_decide (strip line = ""))) then sebool_lines rest ret
    else
      let comps := split line in
      bind (item comps 1) (fun c1 =>
      bind (item comps 3) (fun c3 =>
      bind (item comps 0) (fun c0 =>
        sebool_lines rest
          (<[c0 := {| State := drop_first c1;
                      Default := drop_last c3;
                      Description := join_spaces (drop 4 comps) |}]> ret))))
  end.

(** [list_sebool()], lines 173-193. *)
Definition list_sebool : prog (gmap string sebool) :=
  perform (cmd_run "semanage boolean -l") (fun out =>
    let bdata := splitlines out in
    sebool_lines (drop 1 bdata) ∅).

(** [getsebool(boolean)], lines 122-132: the entry, or [None] for [{}]. *)
Definition getsebool (boolean : string) : prog (option sebool) :=
  bind list_sebool (fun all => Return (all !! boolean)).

(** An entry of [list_semod]. *)
Record semod : Type := {
  Enabled : bool;
  Version : string
}.

(** The loop of [list_semod], lines 245-254. *)
Fixpoint semod_lines (lines : list string) (ret : gmap string semod) :
    prog (gmap string semod) :=
  match lines with
  | [] => Return ret
  | line :: rest =>
    if negb (negb (bool_decide (strip line = ""))) then semod_lines rest ret
    else
      let comps := split line in
      if bool_decide (length comps = 3%nat) then
        bind (item comps 1) (fun c1 =>
        bind (item comps 0) (fun c0 =>
          semod_lines rest (<[c0 := {| Enabled := false; Version := c1 |}]> ret)))
      else
        bind (item comps 1) (fun c1 =>
        bind (item comps 0) (fun c0 =>
          semod_lines rest (<[c0 := {| Enabled := true; Version := c1 |}]> ret)))
  end.

(** [list_semod()], lines 230-255. *)
Definition list_semod : prog (gmap string semod) :=
  perform (cmd_run "semodule -l") (fun out =>
    let mdata := splitlines out in
    semod_lines (drop 1 mdata) ∅).

(** [getsemod(module)], lines 196-208: the entry, or [None] for [{}]. *)
Definition getsemod (module : string) : prog (option semod) :=
  bind list_semod (fun all => Return (all !! module)).

(** [setsemod(module, state)], lines 211-227: the local [cmd] is bound only
    for the states enabled and disabled. *)
Definition setsemod (module state : string) : prog bool :=
  let cmd :=
    if bool_decide (lower state = "enabled") then Some ("semodule -e " ++ module)
    else if bool_decide (lower state = "disabled") then
      Some ("semodule -d " ++ module)
    else None in
  match cmd with
  | None =>
    Raise (PyExn UnboundLocalError
             "local variable 'cmd' referenced before assignment")
  | Some cmd =>
    perform (cmd_retcode cmd None) (fun rc =>
      Return (negb (bool_decide (rc ≠ 0))))
  end.

(** ** A scripted handler for the module *)

Inductive reply : Type :=
| RPath (p : option string)
| RBool (b : bool)
| RStr (s : string)
| RUnit
| RCode (n : Z)
| RRaise (e : pyexn).

Definition unexpected {A} : answer A := Err (PyExn OtherError "unexpected reply").

Definition reply_as (c : call) (r : reply) : answer (resp c) :=
  match c return answer (resp c) with
  | which _ =>
    match r with RPath p => Ok p | RRaise e => Err e | _ => unexpected end
  | isdir _ | isfile _ =>
    match r with RBool b => Ok b | RRaise e => Err e | _ => unexpected end
  | read_first_line _ | cmd_run _ =>
    match r with RStr s => Ok s | RRaise e => Err e | _ => unexpected end
  | write_file _ _ =>
    match r with RUnit => Ok tt | RRaise e => Err e | _ => unexpected end
  | cmd_retcode _ _ =>
    match r with RCode n => Ok n | RRaise e => Err e | _ => unexpected end
  end.

Definition scripted : handler (list reply) :=
  fun c script =>
    match script with
    | r :: rest => (reply_as c r, rest)
    | [] => (Err (PyExn OtherError "script exhausted"), [])
    end.

(** ** Properties of a run of the module *)

Definition is_which (c : call) : bool :=
  match c with
  | which _ => true
  | _ => false
  end.

Definition is_probe (c : call) : bool :=
  match c with
  | isdir _ | isfile _ => true
  | _ => false
  end.

(** The three commands [__virtual__] requires, in the order it asks. *)
Definition required_cmds : list string := ["semanage"; "setsebool"; "semodule"].

(** The text [setsebools] appends for the items. *)
Definition pairs_text (items : list (string * string)) : string :=
  foldr (fun bv rest => (" " ++ fst bv ++ "=" ++ snd bv) ++ rest) "" items.

(** The line is one the listing loops skip. *)
Definition blank (line : string) : bool := bool_decide (strip line = "").

(** The entry [list_semod] makes of a line. *)
Definition semod_of (comps : list string) : option (string * semod) :=
  match comps with
  | name :: version :: _ =>
    Some (name, {| Enabled := negb (bool_decide (length comps = 3%nat));
                   Version := version |})
  | _ => None
  end.

(** The entry [list_sebool] makes of a line. *)
Definition sebool_of (comps : list string) : option (string * sebool) :=
  match comps with
  | name :: state :: _ :: default :: description =>
    Some (name, {| State := drop_first state;
                   Default := drop_last default;
                   Description := join_spaces description |})
  | _ => None
  end.

(** The lines of an output that the listing loops read: those after the
    first that are not blank. *)
Definition data_lines (out : string) : list string :=
  List.filter (fun line => negb (blank line)) (drop 1 (splitlines out)).

(** ** Sample outputs *)

Definition nl : string := String "010" EmptyString.

(** An output of [semodule -l] in the three-column form. *)
Definition semodule_output : string :=
  "Name Version State" ++ nl
  ++ "abrt 1.4.1" ++ nl
  ++ nl
  ++ "zebra 1.13.0 Disabled" ++ nl.

(** The same with a line of a single field. *)
Definition semodule_output_short : string :=
  "Name Version State" ++ nl ++ "abrt 1.4.1" ++ nl ++ "zebra" ++ nl.

(** An output of [semanage boolean -l]. *)
Definition semanage_output : string :=
  "SELinux boolean                State  Default Description" ++ nl
  ++ nl
  ++ "ftp_home_dir                   (off  ,  off)  Allow ftp to read home dirs"
  ++ nl
  ++ "virt_use_usb                   (on   ,   on)  Allow virt to use usb" ++ nl.

(** The same with a line short of the default. *)
Definition semanage_output_short : string :=
  "SELinux boolean                State  Default Description" ++ nl
  ++ "ftp_home_dir                   (off" ++ nl.

End Selinux.

(** ** Proof support *)

Lemma run_call {W A} (h : handler W) (c : call) (k : resp c → prog A) (w : W) :
  run h (Call c k) w =
  match h c w with
  | (Val x, w') => log (Ev c (Val x)) (run h (k x) w')
  | (Exn e, w') => Ran (Exn e) w' [Ev c (Exn e)]
  end.
Proof. reflexivity. Qed.

(** A property of the tree that holds of every call holds of every run. *)
Lemma never_calls_run {W A} (P : call → bool) (p : prog A) :
  never_calls P p → ∀ (h : handler W) (w : W), existsb P (calls (run h p w)) = false.
Proof.
  induction p as [a | e | c k IH]; intros Hp h w; try reflexivity.
  destruct Hp as [Hc Hk]. rewrite run_call.
  destruct (h c w) as [[x | e] w'].
  - unfold calls, log. cbn [trace_of map existsb ev_call].
    rewrite Hc. cbn [orb]. apply (IH x (Hk x)).
  - cbn. rewrite Hc. reflexivity.
Qed.

(** Without an action among the calls the status is not Converged. *)
Lemma no_action_not_converged (ret : result) (cs : list call) :
  existsb is_action cs = false → status_of ret cs ≠ Converged.
Proof.
  intros Hcs. unfold status_of. rewrite Hcs.
  destruct (ret !! "result") as [[[ | [] | | ] | ] | ]; discriminate.
Qed.

Lemma dry_run_pure_of_tree {W} (h : handler W) (w : W) (p : prog result) :
  never_calls is_action p → dry_run_pure (run h p w).
Proof.
  intros Hp. pose proof (never_calls_run is_action p Hp h w) as Hcs.
  split; [exact Hcs | intros ret _; apply no_action_not_converged, Hcs].
Qed.

(** Follow the control flow of a program under [run]: branch on the head
    condition, on the lookup it matches on, or on the handler's answer;
    failing those, on a condition met inside the dictionary. *)
Ltac unfold_run := cbn [run log outcome_of world_of trace_of calls map ev_call].

Ltac explore :=
  repeat (unfold_run;
    match goal with
    | |- context [run _ (if ?b then _ else _) _] => destruct b eqn:?
    | |- context [run _ (match ?o with Some _ => _ | None => _ end) _] =>
      destruct o eqn:?
    | |- context [match ?h ?c ?w with pair _ _ => _ end] =>
      destruct (h c w) as [[?|?] ?] eqn:?
    | |- context [if ?b then _ else _] => destruct b eqn:?
    end);
  unfold_run.

(** Settle a leaf: the dictionary is closed up to the values it stores. *)
Ltac leaf_conditions :=
  repeat match goal with
  | H : negb (truthy _) = _ |- _ => vm_compute in H
  | H : truthy _ = _ |- _ => vm_compute in H
  end; try discriminate.

Ltac with_result ret H :=
  intros ret H; try discriminate H; injection H as <-.

(** ** Changes and status (C1) *)

Lemma peered_changes_iff_converged {W} (h : handler W) (w : W) opts name :
  changes_iff_converged (run h (peered opts name) w).
Proof.
  unfold changes_iff_converged, peered. explore.
  all: with_result ret Hret.
  all: vm_compute; intuition congruence.
Qed.

Lemma add_volume_bricks_changes_iff_converged {W} (h : handler W) (w : W)
    opts name bricks :
  changes_iff_converged (run h (add_volume_bricks opts name bricks) w).
Proof.
  unfold changes_iff_converged, add_volume_bricks. explore.
  all: with_result ret Hret.
  all: vm_compute; intuition congruence.
Qed.

Lemma started_changes_only_if_converged {W} (h : handler W) (w : W) opts name :
  changes_only_if_converged (run h (started opts name) w).
Proof.
  unfold changes_only_if_converged, started. explore.
  all: with_result ret Hret.
  all: intros _; vm_compute; reflexivity.
Qed.

Lemma volume_present_changes_ok {W} (h : handler W) (w : W)
    opts name bricks stripe replica device_vg transport start force :
  volume_present_changes name
    (Ev (glusterfs_create_volume name bricks stripe replica device_vg
           transport start force) (Val true))
    (run h (volume_present opts name bricks stripe replica device_vg
              transport start force) w).
Proof.
  unfold volume_present_changes, volume_present. explore.
  all: unfold volume_present_start; explore.
  all: with_result ret Hret.
  all: leaf_conditions.
  all: repeat match goal with
       | H : negb ?b = false |- _ => (destruct b; [clear H | discriminate H])
       | H : bool_decide (_ ∈ _) = true |- _ => apply bool_decide_eq_true_1 in H
       | H : bool_decide (_ ∈ _) = false |- _ => apply bool_decide_eq_false_1 in H
       end.
  all: split.
  all: try (intros Hch; vm_compute in Hch; discriminate Hch).
  all: try (intros Hst; vm_compute in Hst; discriminate Hst).
  all: try (intros _; left; vm_compute; reflexivity).
  all: try (intros _ Hch; vm_compute in Hch; discriminate Hch).
  all: try (intros _ _; eexists _, _, _; split; [reflexivity | assumption]).
  all: intros _; right; split; [vm_compute; reflexivity | ].
  all: eexists _, _, _; split; [reflexivity | ].
  all: split; [assumption | split; vm_compute; reflexivity].
Qed.

(** C1, as stated, fails: when [volume_present] has created the volume and
    seen it listed, and the start action then reports failure, the result is
    Failed and still carries the changes of the creation. *)
Lemma failed_result_with_changes :
  (∃ ret, outcome_of created_then_start_fails = Val ret
          ∧ status_of ret (calls created_then_start_fails) = Failed
          ∧ has_changes ret = true)
  ∧ ¬ changes_iff_converged created_then_start_fails.
Proof.
  split.
  - eexists. split; [vm_compute; reflexivity | ]. split; vm_compute; reflexivity.
  - intros H. unfold changes_iff_converged in H.
    destruct (H _ eq_refl) as [H1 _].
    assert (Hc : has_changes
                   (match outcome_of created_then_start_fails with
                    | Val ret => ret
                    | Exn _ => ∅
                    end) = true) by (vm_compute; reflexivity).
    specialize (H1 Hc). vm_compute in H1. discriminate H1.
Qed.

(** C1, amended: for [peered] and [add_volume_bricks] the changes are
    non-empty exactly when the result is Converged.  A result of [started]
    that is not Converged carries no changes.  For [volume_present],
    non-empty changes come with a Converged result, except in the one run
    where the creation was confirmed by the volumes listed after it and the
    start action then reported failure: that result is Failed and keeps the
    volume lists of the creation as its changes; and a Converged result has
    non-empty changes, except where the volumes listed after a creation that
    reported success lack the volume. *)
Theorem changes_and_status {W} (h : handler W) (w : W) opts name bricks
    stripe replica device_vg transport start force :
  changes_iff_converged (run h (peered opts name) w)
  ∧ changes_iff_converged (run h (add_volume_bricks opts name bricks) w)
  ∧ changes_only_if_converged (run h (started opts name) w)
  ∧ volume_present_changes name
      (Ev (glusterfs_create_volume name bricks stripe replica device_vg
             transport start force) (Val true))
      (run h (volume_present opts name bricks stripe replica device_vg
                transport start force) w).
Proof.
  split; [apply peered_changes_iff_converged | ].
  split; [apply add_volume_bricks_changes_iff_converged | ].
  split; [apply started_changes_only_if_converged
         | apply volume_present_changes_ok].
Qed.

(** ** Dry run (C2) *)

Lemma peered_dry_tree name : never_calls is_action (peered dry name).
Proof.
  unfold peered. cbn [never_calls]. split; [reflexivity | intros addr].
  split; [reflexivity | intros addrs].
  destruct (bool_decide (addr ∈ addrs)); [exact I | ].
  cbn [never_calls]. split; [reflexivity | intros peers].
  destruct (peers_truthy peers && name_in_peers name peers); [exact I | ].
  destruct (check_name name "a-zA-Z0-9._-"); exact I.
Qed.

Lemma volume_present_start_dry_tree name start ret :
  never_calls is_action (volume_present_start dry name start ret).
Proof. unfold volume_present_start. destruct start; exact I. Qed.

Lemma volume_present_dry_tree name bricks stripe replica device_vg transport
    start force :
  never_calls is_action
    (volume_present dry name bricks stripe replica device_vg transport start force).
Proof.
  unfold volume_present.
  destruct (check_name name "a-zA-Z0-9._-"); [exact I | ].
  cbn [never_calls]. split; [reflexivity | intros volumes].
  destruct (negb (bool_decide (name ∈ volumes))); [exact I | ].
  apply volume_present_start_dry_tree.
Qed.

Lemma started_dry_tree name : never_calls is_action (started dry name).
Proof.
  unfold started. cbn [never_calls]. split; [reflexivity | intros volinfo].
  destruct (volinfo !! name) as [v | ]; [ | exact I].
  destruct (status v =? 1)%Z; exact I.
Qed.

(** C2, as stated, fails: under the test flag [add_volume_bricks] still
    invokes the add-bricks action and returns a Converged result. *)
Lemma add_volume_bricks_acts_under_test :
  test dry = true
  ∧ calls bricks_added_under_test =
      [glusterfs_info; glusterfs_add_volume_bricks "v1" both_bricks;
       glusterfs_info]
  ∧ (∃ ret, outcome_of bricks_added_under_test = Val ret
            ∧ status_of ret (calls bricks_added_under_test) = Converged)
  ∧ ¬ dry_run_pure bricks_added_under_test.
Proof.
  split; [reflexivity | ]. split; [vm_compute; reflexivity | ].
  split.
  - eexists. split; vm_compute; reflexivity.
  - intros [H _]. vm_compute in H. discriminate H.
Qed.

(** C2, amended: with the test flag set, [peered], [volume_present] and
    [started] invoke no state-changing action and never return Converged,
    whatever the collaborators answer; [add_volume_bricks] does not read the
    flag and is the same program with and without it. *)
Theorem dry_run_takes_no_action {W} (h : handler W) (w : W) name bricks
    stripe replica device_vg transport start force :
  dry_run_pure (run h (peered dry name) w)
  ∧ dry_run_pure
      (run h (volume_present dry name bricks stripe replica device_vg
                transport start force) w)
  ∧ dry_run_pure (run h (started dry name) w)
  ∧ add_volume_bricks dry name bricks = add_volume_bricks live name bricks.
Proof.
  split; [apply dry_run_pure_of_tree, peered_dry_tree | ].
  split; [apply dry_run_pure_of_tree, volume_present_dry_tree | ].
  split; [apply dry_run_pure_of_tree, started_dry_tree | reflexivity].
Qed.

(** ** A successful start in [started] (C3) *)

(** C3 on the code: starting a stopped volume returns [True] under result
    after the start action, but the dictionary [{'new': 'started', 'old':
    'stopped'}] is stored under the key change, and changes stays empty. *)
Theorem started_stores_change_not_changes :
  calls stopped_volume_started = [glusterfs_info; glusterfs_start_volume "v1"]
  ∧ ∃ ret, outcome_of stopped_volume_started = Val ret
    ∧ status_of ret (calls stopped_volume_started) = Converged
    ∧ ret !! "changes" = Some (Dict ∅)
    ∧ ret !! "change" = Some (new_old (PStr "started") (PStr "stopped"))
    ∧ has_changes ret = false.
Proof.
  split; [vm_compute; reflexivity | ].
  eexists. split; [vm_compute; reflexivity | ].
  repeat split; vm_compute; reflexivity.
Qed.

(** ** Faults (C4) *)








(** The missing key of the re-query of [add_volume_bricks]: the add action
    reported success and the volume info queried after it lacks the volume;
    the run ends with the missing-key fault, after the action was taken. *)
Lemma bricks_requery_missing_key :
  calls bricks_added_then_no_info
  = [glusterfs_info; glusterfs_add_volume_bricks "v1" ["h1:/b1"; "h2:/b2"];
     glusterfs_info]
  ∧ last_info bricks_added_then_no_info = Some ∅
  ∧ outcome_of bricks_added_then_no_info = Exn (KeyError "v1").
Proof. repeat split; vm_compute; reflexivity. Qed.



(** ** An action that reports success without effect (C5) *)

(** The [peered] half of C5: when the peer-add reports success and the
    re-queried peer list lacks the peer, the result is Failed and the comment
    says that the peering was attempted. *)
Lemma peered_mismatch_failed {W} (h : handler W) (w w1 w2 w3 w4 w5 : W)
    name addr addrs peers newpeers :
  h (gethostbyname name) w = (Val addr, w1) →
  h network_ip_addrs w1 = (Val addrs, w2) →
  addr ∉ addrs →
  h glusterfs_list_peers w2 = (Val peers, w3) →
  name_in_peers name peers = false →
  check_name name "a-zA-Z0-9._-" = false →
  h (glusterfs_peer name) w3 = (Val true, w4) →
  h glusterfs_list_peers w4 = (Val newpeers, w5) →
  name_in_peers name newpeers = false →
  ∃ ret, outcome_of (run h (peered live name) w) = Val ret
    ∧ status_of ret (calls (run h (peered live name) w)) = Failed
    ∧ has_changes ret = false
    ∧ comment_of ret =
        "Host " ++ name
        ++ " was successfully peered but did not appear in the list of peers".
Proof.
  intros H1 H2 Hloc H3 Hin Hok H4 H5 Hnew.
  unfold peered. unfold_run. rewrite H1. unfold_run. rewrite H2.
  rewrite (bool_decide_eq_false_2 _ Hloc). unfold_run. rewrite H3.
  rewrite Hin, andb_false_r, Hok. cbn [test live negb]. unfold_run.
  rewrite H4. cbn [negb]. unfold_run. rewrite H5.
  rewrite Hnew, andb_false_r. unfold_run.
  eexists. split; [reflexivity | ].
  repeat split; vm_compute; reflexivity.
Qed.

(** C5 on the code: in [volume_present] the creation reports success and the
    re-queried volume list lacks the volume; nothing is recorded for that
    case, and without a start request the call ends with [True] under result,
    an empty comment and empty changes. *)
Theorem volume_present_unconfirmed_creation_succeeds :
  calls created_but_not_listed =
    [glusterfs_list_volumes;
     glusterfs_create_volume "v1" both_bricks None None false "tcp" false false;
     glusterfs_list_volumes]
  ∧ trace_of created_but_not_listed =
      [Ev glusterfs_list_volumes (Val []);
       Ev (glusterfs_create_volume "v1" both_bricks None None false "tcp"
             false false) (Val true);
       Ev glusterfs_list_volumes (Val [])]
  ∧ ∃ ret, outcome_of created_but_not_listed = Val ret
    ∧ ret !! "result" = Some py_true
    ∧ status_of ret (calls created_but_not_listed) = Converged
    ∧ comment_of ret = ""
    ∧ has_changes ret = false.
Proof.
  split; [vm_compute; reflexivity | ].
  split; [vm_compute; reflexivity | ].
  eexists. split; [vm_compute; reflexivity | ].
  repeat split; vm_compute; reflexivity.
Qed.

(** ** Re-query before Converged (C6) *)

Lemma peered_confirmed {W} (h : handler W) (w : W) opts name :
  peer_confirmed name (run h (peered opts name) w).
Proof.
  unfold peer_confirmed, peered. explore.
  all: with_result ret Hret.
  all: intros Hst; try (vm_compute in Hst; discriminate Hst).
  eexists. split; [reflexivity | ]. split; [ | vm_compute; reflexivity].
  match goal with
  | H : (peers_truthy ?p && name_in_peers name ?p)%bool = true |- _ =>
    apply andb_true_iff in H; exact (proj2 H)
  end.
Qed.

Lemma volume_present_creation_confirmed {W} (h : handler W) (w : W)
    opts name bricks stripe replica device_vg transport start force :
  creation_confirmed name
    (Ev (glusterfs_create_volume name bricks stripe replica device_vg
           transport start force) (Val true))
    (run h (volume_present opts name bricks stripe replica device_vg
              transport start force) w).
Proof.
  unfold creation_confirmed, volume_present. explore.
  all: unfold volume_present_start; explore.
  all: intros ret vols Hret; try discriminate Hret; injection Hret as <-.
  all: leaf_conditions.
  all: intros Hnew; vm_compute in Hnew; try discriminate Hnew.
  all: injection Hnew as <-.
  all: match goal with
       | H : bool_decide (_ ∈ _) = true |- _ =>
         apply bool_decide_eq_true_1 in H
       end.
  all: split; [assumption | ].
  all: match goal with
       | H : negb ?b = false |- _ => destruct b; [ | discriminate H]
       end.
  all: eexists _, _; split; [reflexivity | vm_compute; reflexivity].
Qed.

Lemma started_unconfirmed {W} (h : handler W) (w : W) opts name :
  start_unconfirmed name (run h (started opts name) w).
Proof.
  unfold start_unconfirmed, started. explore.
  all: with_result ret Hret.
  all: intros Hst; try (vm_compute in Hst; discriminate Hst).
  reflexivity.
Qed.

Lemma volume_present_start_is_last {W} (h : handler W) (w : W)
    opts name bricks stripe replica device_vg transport start force :
  start_action_is_last name
    (run h (volume_present opts name bricks stripe replica device_vg
              transport start force) w).
Proof.
  unfold start_action_is_last, volume_present. explore.
  all: unfold volume_present_start; explore.
  all: with_result ret Hret.
  all: intros Hst; try (vm_compute in Hst; discriminate Hst).
  all: eexists; reflexivity.
Qed.

Lemma add_volume_bricks_requeried {W} (h : handler W) (w : W) opts name bricks :
  bricks_requeried name (run h (add_volume_bricks opts name bricks) w).
Proof.
  unfold bricks_requeried, add_volume_bricks. explore.
  all: with_result ret Hret.
  all: intros Hst; try (vm_compute in Hst; discriminate Hst).
  eexists _, _. split; [reflexivity | ].
  split; [eassumption | vm_compute; reflexivity].
Qed.

(** C6, as stated, fails: [started] reports Converged right after the start
    action reported success; the last call of the run is the action, and no
    query follows it. *)
Lemma converged_without_requery :
  calls stopped_volume_started = [glusterfs_info; glusterfs_start_volume "v1"]
  ∧ (∃ ret, outcome_of stopped_volume_started = Val ret
            ∧ status_of ret (calls stopped_volume_started) = Converged)
  ∧ requeried (calls stopped_volume_started) = false
  ∧ ¬ converged_after_requery stopped_volume_started.
Proof.
  split; [vm_compute; reflexivity | ].
  split; [eexists; split; vm_compute; reflexivity | ].
  split; [vm_compute; reflexivity | ].
  intros H. unfold converged_after_requery in H.
  assert (Hq : requeried (calls stopped_volume_started) = true).
  { eapply H; vm_compute; reflexivity. }
  vm_compute in Hq. discriminate Hq.
Qed.

(** C6, amended: [peered] returns Converged only after a re-query of the
    peers that holds the peer; [volume_present] reports a volume list as new
    only when that list answered the query made right after the creation and
    holds the volume; [add_volume_bricks] returns Converged only after a
    re-query of the volume info, whose bricks it reports without comparing
    them with the request.  [started] returns Converged with the start action
    as its last call, and the start action of [volume_present], once taken,
    is its last call: neither queries again after starting. *)
Theorem converged_and_requery {W} (h : handler W) (w : W) opts name bricks
    stripe replica device_vg transport start force :
  peer_confirmed name (run h (peered opts name) w)
  ∧ creation_confirmed name
      (Ev (glusterfs_create_volume name bricks stripe replica device_vg
             transport start force) (Val true))
      (run h (volume_present opts name bricks stripe replica device_vg
                transport start force) w)
  ∧ bricks_requeried name (run h (add_volume_bricks opts name bricks) w)
  ∧ start_unconfirmed name (run h (started opts name) w)
  ∧ start_action_is_last name
      (run h (volume_present opts name bricks stripe replica device_vg
                transport start force) w).
Proof.
  split; [apply peered_confirmed | ].
  split; [apply volume_present_creation_confirmed | ].
  split; [apply add_volume_bricks_requeried | ].
  split; [apply started_unconfirmed | apply volume_present_start_is_last].
Qed.

(** ** Validation of the name (C7) *)






(** ** The start phase of [volume_present] (C8) *)




(** ** The bricks of a volume (C9) *)

(** The test of the source, an empty set difference, is inclusion of the
    requested paths in the current ones. *)
Lemma bricks_present_spec (bricks current : list string) :
  bricks_present bricks current = true ↔ ∀ p, p ∈ bricks → p ∈ current.
Proof.
  unfold bricks_present. rewrite bool_decide_eq_true. split.
  - intros Hempty p Hp.
    destruct (decide (p ∈ current)) as [Hin | Hout]; [exact Hin | ].
    assert (Hd : p ∈ (list_to_set bricks : gset string) ∖ list_to_set current).
    { apply elem_of_difference. rewrite !elem_of_list_to_set. split; assumption. }
    rewrite Hempty in Hd. apply not_elem_of_empty in Hd. destruct Hd.
  - intros Hsub. apply set_eq. intros p.
    rewrite elem_of_difference, !elem_of_list_to_set. split.
    + intros [Hp Hn]. destruct (Hn (Hsub p Hp)).
    + intros Hp. apply not_elem_of_empty in Hp. destruct Hp.
Qed.

(** C9, as stated, fails: the add action reports success and the re-queried
    volume info still has the one old brick; the result is Converged and the
    list under new lacks a requested brick. *)
Lemma new_bricks_not_a_superset :
  bricks_present both_bricks ["h1:/b1"] = false
  ∧ calls bricks_not_added =
      [glusterfs_info; glusterfs_add_volume_bricks "v1" both_bricks; glusterfs_info]
  ∧ ∃ ret, outcome_of bricks_not_added = Val ret
    ∧ status_of ret (calls bricks_not_added) = Converged
    ∧ changes_new ret = Some (PList ["h1:/b1"])
    ∧ ¬ superset_of_both ["h1:/b1"] ["h1:/b1"] both_bricks.
Proof.
  split; [vm_compute; reflexivity | ].
  split; [vm_compute; reflexivity | ].
  eexists. split; [vm_compute; reflexivity | ].
  split; [vm_compute; reflexivity | ].
  split; [vm_compute; reflexivity | ].
  intros [_ H].
  assert (Hin : "h2:/b2" ∈ ["h1:/b1"]).
  { apply H. unfold both_bricks. apply list_elem_of_further, list_elem_of_here. }
  apply list_elem_of_singleton in Hin. discriminate Hin.
Qed.

(** C9, amended: on an existing, started volume, [add_volume_bricks] returns
    Unchanged after the one query, without the add action, when every
    requested path is among the current ones.  Otherwise it invokes the add
    action with the full requested list, and when that reports success and
    the re-queried volume info has the volume, it returns Converged with the
    current paths as old and the re-queried paths as new, whatever these
    are. *)
Theorem add_volume_bricks_on_started_volume {W} (h : handler W) (w w1 : W)
    opts name bricks m v :
  h glusterfs_info w = (Val m, w1) → m !! name = Some v → status v = 1 →
  ((∀ p, p ∈ bricks → p ∈ brick_paths v) →
   ∃ ret,
     run h (add_volume_bricks opts name bricks) w
     = Ran (Val ret) w1 [Ev glusterfs_info (Val m)]
     ∧ status_of ret [glusterfs_info] = Unchanged
     ∧ comment_of ret = "Bricks already added in volume " ++ name
     ∧ has_changes ret = false)
  ∧ (∀ w2 w3 m' v',
       ¬ (∀ p, p ∈ bricks → p ∈ brick_paths v) →
       h (glusterfs_add_volume_bricks name bricks) w1 = (Val true, w2) →
       h glusterfs_info w2 = (Val m', w3) → m' !! name = Some v' →
       ∃ ret,
         run h (add_volume_bricks opts name bricks) w
         = Ran (Val ret) w3
             [Ev glusterfs_info (Val m);
              Ev (glusterfs_add_volume_bricks name bricks) (Val true);
              Ev glusterfs_info (Val m')]
         ∧ status_of ret
             [glusterfs_info; glusterfs_add_volume_bricks name bricks;
              glusterfs_info] = Converged
         ∧ changes_new ret = Some (PList (brick_paths v'))
         ∧ changes_old ret = Some (PList (brick_paths v))).
Proof.
  intros H1 Hm Hst. split.
  - intros Hsub. apply bricks_present_spec in Hsub. unfold bricks_present in Hsub.
    unfold add_volume_bricks. unfold_run. rewrite H1, Hm, Hst.
    cbn [Z.eqb Pos.eqb negb]. rewrite Hsub. unfold_run.
    eexists. split; [reflexivity | ].
    repeat split; vm_compute; reflexivity.
  - intros w2 w3 m' v' Hsub H2 H3 Hm'.
    assert (Hp : bricks_present bricks (brick_paths v) = false).
    { destruct (bricks_present bricks (brick_paths v)) eqn:E; [ | reflexivity].
      destruct Hsub. apply bricks_present_spec, E. }
    unfold bricks_present in Hp.
    unfold add_volume_bricks. unfold_run. rewrite H1, Hm, Hst.
    cbn [Z.eqb Pos.eqb negb]. rewrite Hp. unfold_run. rewrite H2.
    unfold_run. rewrite H3, Hm'. unfold_run.
    eexists. split; [reflexivity | ].
    repeat split; vm_compute; reflexivity.
Qed.

Lemma add_volume_bricks_on_started_volume_witness :
  (∃ ret,
     run scripted (add_volume_bricks live "v1" ["h1:/b1"])
       [AInfo {[ "v1" := vol 1 both_bricks ]}]
     = Ran (Val ret) [] [Ev glusterfs_info (Val {[ "v1" := vol 1 both_bricks ]})]
     ∧ status_of ret [glusterfs_info] = Unchanged
     ∧ comment_of ret = "Bricks already added in volume " ++ "v1"
     ∧ has_changes ret = false)
  ∧ (∃ ret,
       run scripted (add_volume_bricks live "v1" both_bricks)
         [AInfo {[ "v1" := vol 1 ["h1:/b1"] ]}; ABool true;
          AInfo {[ "v1" := vol 1 both_bricks ]}]
       = Ran (Val ret) []
           [Ev glusterfs_info (Val {[ "v1" := vol 1 ["h1:/b1"] ]});
            Ev (glusterfs_add_volume_bricks "v1" both_bricks) (Val true);
            Ev glusterfs_info (Val {[ "v1" := vol 1 both_bricks ]})]
       ∧ status_of ret
           [glusterfs_info; glusterfs_add_volume_bricks "v1" both_bricks;
            glusterfs_info] = Converged
       ∧ changes_new ret = Some (PList (brick_paths (vol 1 both_bricks)))
       ∧ changes_old ret = Some (PList (brick_paths (vol 1 ["h1:/b1"])))).
Proof.
  split.
  - apply (add_volume_bricks_on_started_volume scripted
             [AInfo {[ "v1" := vol 1 both_bricks ]}] [] live "v1" ["h1:/b1"]
             {[ "v1" := vol 1 both_bricks ]} (vol 1 both_bricks)).
    + reflexivity.
    + vm_compute; reflexivity.
    + reflexivity.
    + intros p Hp. apply list_elem_of_singleton in Hp. subst p.
      apply list_elem_of_here.
  - assert (Hm : ({[ "v1" := vol 1 ["h1:/b1"] ]} : gmap string VolInfo) !! "v1"
                 = Some (vol 1 ["h1:/b1"])) by (vm_compute; reflexivity).
    pose proof (add_volume_bricks_on_started_volume scripted
                  [AInfo {[ "v1" := vol 1 ["h1:/b1"] ]}; ABool true;
                   AInfo {[ "v1" := vol 1 both_bricks ]}]
                  [ABool true; AInfo {[ "v1" := vol 1 both_bricks ]}]
                  live "v1" both_bricks
                  {[ "v1" := vol 1 ["h1:/b1"] ]} (vol 1 ["h1:/b1"])
                  eq_refl Hm eq_refl) as [_ Hb].
    apply (Hb [AInfo {[ "v1" := vol 1 both_bricks ]}] []
              {[ "v1" := vol 1 both_bricks ]} (vol 1 both_bricks)).
    + intros Hsub.
      assert (Hin : "h2:/b2" ∈ brick_paths (vol 1 ["h1:/b1"])).
      { apply Hsub. apply list_elem_of_further, list_elem_of_here. }
      apply list_elem_of_singleton in Hin. discriminate Hin.
    + reflexivity.
    + reflexivity.
    + vm_compute; reflexivity.
Defined.

(** ** The deprecated alias (C10) *)

(** C10: where the deprecation warning returns and leaves the world as it
    was, [created] ends with the same outcome (the same Result, or the same
    fault) and the same world as [volume_present] on the same arguments, and
    makes the same calls after the warning. *)
Theorem created_is_volume_present {W} (h : handler W) (w : W) opts name bricks
    stripe replica device_vg transport start force :
  h created_warning w = (Val tt, w) →
  outcome_of (run h (created opts name bricks stripe replica device_vg
                       transport start force) w)
  = outcome_of (run h (volume_present opts name bricks stripe replica device_vg
                         transport start force) w)
  ∧ world_of (run h (created opts name bricks stripe replica device_vg
                       transport start force) w)
    = world_of (run h (volume_present opts name bricks stripe replica device_vg
                         transport start force) w)
  ∧ trace_of (run h (created opts name bricks stripe replica device_vg
                       transport start force) w)
    = Ev created_warning (Val tt)
      :: trace_of (run h (volume_present opts name bricks stripe replica
                            device_vg transport start force) w).
Proof.
  intros Hwarn. unfold created. rewrite run_call, Hwarn.
  repeat split.
Qed.

Lemma created_is_volume_present_witness :
  outcome_of (run scripted
                (created live "v1" both_bricks None None false "tcp" false false)
                [AStrs []; ABool true; AStrs ["v1"]])
  = outcome_of (run scripted
                  (volume_present live "v1" both_bricks None None false "tcp"
                     false false)
                  [AStrs []; ABool true; AStrs ["v1"]]).
Proof.
  apply (created_is_volume_present scripted [AStrs []; ABool true; AStrs ["v1"]]
           live "v1" both_bricks None None false "tcp" false false).
  reflexivity.
Defined.

(** * Further properties of the state functions *)

Ltac closed_fact := apply (bool_decide_unpack _); vm_compute; exact I.

Ltac typed_leaf :=
  split; [vm_compute; reflexivity | ];
  split; [eexists; vm_compute; reflexivity | ];
  split; [eexists; vm_compute; reflexivity | ];
  eexists; split; [vm_compute; reflexivity | ];
  first [left; reflexivity | right; left; reflexivity | right; right; reflexivity].

(** ** The returned dictionary *)

Lemma peered_four_keys {W} (h : handler W) (w : W) opts name :
  four_keys name (run h (peered opts name) w).
Proof.
  unfold four_keys, peered. explore.
  all: with_result ret Hret.
  all: split; [typed_leaf | vm_compute; reflexivity].
Qed.

Lemma add_volume_bricks_four_keys {W} (h : handler W) (w : W) opts name bricks :
  four_keys name (run h (add_volume_bricks opts name bricks) w).
Proof.
  unfold four_keys, add_volume_bricks. explore.
  all: with_result ret Hret.
  all: split; [typed_leaf | vm_compute; reflexivity].
Qed.

Lemma volume_present_four_keys {W} (h : handler W) (w : W)
    opts name bricks stripe replica device_vg transport start force :
  four_keys name
    (run h (volume_present opts name bricks stripe replica device_vg
              transport start force) w).
Proof.
  unfold four_keys, volume_present. explore.
  all: unfold volume_present_start; explore.
  all: with_result ret Hret.
  all: leaf_conditions.
  all: split; [typed_leaf | vm_compute; reflexivity].
Qed.

Lemma started_four_keys_or_change {W} (h : handler W) (w : W) opts name :
  four_keys_or_change name (run h (started opts name) w).
Proof.
  unfold four_keys_or_change, started. explore.
  all: with_result ret Hret.
  all: split; [typed_leaf | ].
  all: first [ left; split; [vm_compute; reflexivity | vm_compute; discriminate]
             | right; split; vm_compute; reflexivity ].
Qed.

(** Every dictionary returned by [peered], [volume_present] and
    [add_volume_bricks] has exactly the keys name, changes, comment and
    result, with the resource name under name, a dictionary under changes, a
    string under comment and [True], [False] or [None] under result.  A
    dictionary returned by [started] is the same, except that its Converged
    result has the fifth key change. *)
Theorem returned_dictionary_shape {W} (h : handler W) (w : W) opts name bricks
    stripe replica device_vg transport start force :
  four_keys name (run h (peered opts name) w)
  ∧ four_keys name
      (run h (volume_present opts name bricks stripe replica device_vg
                transport start force) w)
  ∧ four_keys name (run h (add_volume_bricks opts name bricks) w)
  ∧ four_keys_or_change name (run h (started opts name) w).
Proof.
  split; [apply peered_four_keys | ].
  split; [apply volume_present_four_keys | ].
  split; [apply add_volume_bricks_four_keys | apply started_four_keys_or_change].
Qed.

(** ** The test flag *)

(** A WouldChange result ([None] under result) is returned only when the
    test flag is set; [add_volume_bricks] never returns one. *)
Theorem would_change_only_under_test {W} (h : handler W) (w : W) opts name
    bricks stripe replica device_vg transport start force :
  would_change_needs_test opts (run h (peered opts name) w)
  ∧ would_change_needs_test opts
      (run h (volume_present opts name bricks stripe replica device_vg
                transport start force) w)
  ∧ would_change_needs_test opts (run h (started opts name) w)
  ∧ ∀ ret, outcome_of (run h (add_volume_bricks opts name bricks) w) = Val ret →
      status_of ret (calls (run h (add_volume_bricks opts name bricks) w))
      ≠ WouldChange.
Proof.
  split; [ | split; [ | split]].
  - unfold would_change_needs_test, peered. explore.
    all: with_result ret Hret.
    all: intros Hst; try (vm_compute in Hst; discriminate Hst).
    reflexivity.
  - unfold would_change_needs_test, volume_present. explore.
    all: unfold volume_present_start; explore.
    all: with_result ret Hret.
    all: leaf_conditions.
    all: intros Hst; try (vm_compute in Hst; discriminate Hst).
    all: reflexivity.
  - unfold would_change_needs_test, started. explore.
    all: with_result ret Hret.
    all: intros Hst; try (vm_compute in Hst; discriminate Hst).
    reflexivity.
  - unfold add_volume_bricks. explore.
    all: with_result ret Hret.
    all: vm_compute; discriminate.
Qed.

(** ** Actions taken *)

(** No action is repeated and none concerns another resource: [peered] takes
    the peer action for [name] at most once, [started] the start action,
    [add_volume_bricks] the add action with the requested list, and
    [volume_present] the create action, the start action, or the create
    action followed by the start action. *)
Theorem actions_taken {W} (h : handler W) (w : W) opts name bricks
    stripe replica device_vg transport start force :
  let create :=
    glusterfs_create_volume name bricks stripe replica device_vg transport
      start force in
  actions_of (calls (run h (peered opts name) w))
    ∈ [[]; [glusterfs_peer name]]
  ∧ actions_of (calls (run h (started opts name) w))
    ∈ [[]; [glusterfs_start_volume name]]
  ∧ actions_of (calls (run h (add_volume_bricks opts name bricks) w))
    ∈ [[]; [glusterfs_add_volume_bricks name bricks]]
  ∧ actions_of (calls (run h (volume_present opts name bricks stripe replica
                                device_vg transport start force) w))
    ∈ [[]; [create]; [glusterfs_start_volume name];
       [create; glusterfs_start_volume name]].
Proof.
  cbv zeta. split; [ | split; [ | split]].
  - unfold peered. explore.
    all: cbn; auto using list_elem_of_here, list_elem_of_further.
  - unfold started. explore.
    all: cbn; auto using list_elem_of_here, list_elem_of_further.
  - unfold add_volume_bricks. explore.
    all: cbn; auto using list_elem_of_here, list_elem_of_further.
  - unfold volume_present. explore.
    all: unfold volume_present_start; explore.
    all: cbn; auto 6 using list_elem_of_here, list_elem_of_further.
Qed.

(** ** Comments *)

Lemma volume_present_empty_comment {W} (h : handler W) (w : W)
    opts name bricks stripe replica device_vg transport start force ret :
  outcome_of (run h (volume_present opts name bricks stripe replica device_vg
                       transport start force) w) = Val ret →
  comment_of ret = "" →
  start = false ∧ test opts = false
  ∧ ∃ old vols,
      trace_of (run h (volume_present opts name bricks stripe replica device_vg
                         transport start force) w)
      = [Ev glusterfs_list_volumes (Val old);
         Ev (glusterfs_create_volume name bricks stripe replica device_vg
               transport start force) (Val true);
         Ev glusterfs_list_volumes (Val vols)]
      ∧ (name ∉ old) ∧ (name ∉ vols).
Proof.
  unfold volume_present. explore.
  all: unfold volume_present_start; explore.
  all: intros Hret; try discriminate Hret; injection Hret as <-.
  all: leaf_conditions.
  all: intros Hc; vm_compute in Hc; try discriminate Hc.
  split; [reflexivity | ]. split; [reflexivity | ].
  repeat match goal with
  | H : negb ?b = _ |- _ => (destruct b eqn:?; try discriminate H; clear H)
  end.
  eexists _, _. split; [reflexivity | ].
  split;
    match goal with
    | H : bool_decide (_ ∈ ?l) = false |- _ ∉ ?l =>
      exact (bool_decide_eq_false_1 _ H)
    end.
Qed.

(** Every dictionary returned by [peered], [started] and [add_volume_bricks]
    has a non-empty comment.  One returned by [volume_present] has an empty
    comment only when start was not requested, the test flag is off, the
    create action reported success and the volume list queried after it
    lacks the volume: the trace is then the query, the creation and the
    re-query. *)
Theorem comment_is_populated {W} (h : handler W) (w : W) opts name bricks
    stripe replica device_vg transport start force :
  comment_populated (run h (peered opts name) w)
  ∧ comment_populated (run h (started opts name) w)
  ∧ comment_populated (run h (add_volume_bricks opts name bricks) w)
  ∧ ∀ ret,
      outcome_of (run h (volume_present opts name bricks stripe replica
                           device_vg transport start force) w) = Val ret →
      comment_of ret = "" →
      start = false ∧ test opts = false
      ∧ ∃ old vols,
          trace_of (run h (volume_present opts name bricks stripe replica
                             device_vg transport start force) w)
          = [Ev glusterfs_list_volumes (Val old);
             Ev (glusterfs_create_volume name bricks stripe replica device_vg
                   transport start force) (Val true);
             Ev glusterfs_list_volumes (Val vols)]
          ∧ (name ∉ old) ∧ (name ∉ vols).
Proof.
  split; [ | split; [ | split]].
  - unfold comment_populated, peered. explore.
    all: with_result ret Hret.
    all: vm_compute; discriminate.
  - unfold comment_populated, started. explore.
    all: with_result ret Hret.
    all: vm_compute; discriminate.
  - unfold comment_populated, add_volume_bricks. explore.
    all: with_result ret Hret.
    all: vm_compute; discriminate.
  - intros ret. apply volume_present_empty_comment.
Qed.

Lemma comment_is_populated_witness :
  ∃ ret,
    outcome_of created_but_not_listed = Val ret
    ∧ comment_of ret = ""
    ∧ false = false ∧ test live = false
    ∧ ∃ old vols,
        trace_of created_but_not_listed
        = [Ev glusterfs_list_volumes (Val old);
           Ev (glusterfs_create_volume "v1" both_bricks None None false "tcp"
                 false false) (Val true);
           Ev glusterfs_list_volumes (Val vols)]
        ∧ ("v1" ∉ old) ∧ ("v1" ∉ vols).
Proof.
  assert (Hret : ∃ ret, outcome_of created_but_not_listed = Val ret
                        ∧ comment_of ret = "").
  { eexists. split; vm_compute; reflexivity. }
  destruct Hret as (ret & Hret & Hc).
  exists ret. split; [exact Hret | ]. split; [exact Hc | ].
  destruct (comment_is_populated scripted [AStrs []; ABool true; AStrs []]
              live "v1" both_bricks None None false "tcp" false false)
    as (_ & _ & _ & Hvp).
  exact (Hvp ret Hret Hc).
Defined.

(** ** The paths of [peered] *)

Ltac feed :=
  repeat (unfold_run;
    match goal with
    | H : ?h ?c ?w = (_, _) |- context [?h ?c ?w] => rewrite H
    end);
  unfold_run.

Ltac facts := repeat split; vm_compute; reflexivity.

(** A name that resolves to one of the local addresses needs no peering:
    [peered] returns [True] after the two calls that tell so, without listing
    the peers, whatever the test flag and whatever characters the name has. *)
Theorem peered_local_address {W} (h : handler W) (w w1 w2 : W) opts name
    addr addrs :
  h (gethostbyname name) w = (Val addr, w1) →
  h network_ip_addrs w1 = (Val addrs, w2) →
  addr ∈ addrs →
  ∃ ret,
    run h (peered opts name) w
    = Ran (Val ret) w2
        [Ev (gethostbyname name) (Val addr); Ev network_ip_addrs (Val addrs)]
    ∧ status_of ret [gethostbyname name; network_ip_addrs] = Unchanged
    ∧ comment_of ret = "Peering with localhost is not needed"
    ∧ has_changes ret = false.
Proof.
  intros H1 H2 Hloc. unfold peered. feed.
  rewrite (bool_decide_eq_true_2 _ Hloc). unfold_run.
  eexists. split; [reflexivity | facts].
Qed.

Lemma peered_local_address_witness :
  ∃ ret,
    run scripted (peered live "bad name!") [AStr "10.0.0.1"; AStrs ["10.0.0.1"]]
    = Ran (Val ret) []
        [Ev (gethostbyname "bad name!") (Val "10.0.0.1");
         Ev network_ip_addrs (Val ["10.0.0.1"])]
    ∧ status_of ret [gethostbyname "bad name!"; network_ip_addrs] = Unchanged
    ∧ comment_of ret = "Peering with localhost is not needed"
    ∧ has_changes ret = false.
Proof.
  eapply (peered_local_address scripted [AStr "10.0.0.1"; AStrs ["10.0.0.1"]]).
  - reflexivity.
  - reflexivity.
  - closed_fact.
Defined.

(** A host found among the peers is left alone: [peered] returns [True] with
    the comment that it is already peered after three calls, whatever the
    test flag and whatever characters the name has. *)
Theorem peered_already_peered {W} (h : handler W) (w w1 w2 w3 : W) opts name
    addr addrs peers :
  h (gethostbyname name) w = (Val addr, w1) →
  h network_ip_addrs w1 = (Val addrs, w2) →
  addr ∉ addrs →
  h glusterfs_list_peers w2 = (Val (Some peers), w3) →
  name ∈ peers →
  ∃ ret,
    run h (peered opts name) w
    = Ran (Val ret) w3
        [Ev (gethostbyname name) (Val addr); Ev network_ip_addrs (Val addrs);
         Ev glusterfs_list_peers (Val (Some peers))]
    ∧ status_of ret [gethostbyname name; network_ip_addrs; glusterfs_list_peers]
      = Unchanged
    ∧ comment_of ret = "Host " ++ name ++ " already peered"
    ∧ has_changes ret = false.
Proof.
  intros H1 H2 Hloc H3 Hin. unfold peered. feed.
  rewrite (bool_decide_eq_false_2 _ Hloc). feed.
  assert (Hp : (peers_truthy (Some peers) && name_in_peers name (Some peers))%bool
               = true).
  { cbn [peers_truthy name_in_peers]. rewrite (bool_decide_eq_true_2 _ Hin).
    destruct peers; [inversion Hin | reflexivity]. }
  rewrite Hp. unfold_run.
  eexists. split; [reflexivity | facts].
Qed.

Lemma peered_already_peered_witness :
  ∃ ret,
    run scripted (peered dry "two")
      [AStr "10.0.0.2"; AStrs ["10.0.0.1"]; APeers (Some ["two"; "three"])]
    = Ran (Val ret) []
        [Ev (gethostbyname "two") (Val "10.0.0.2");
         Ev network_ip_addrs (Val ["10.0.0.1"]);
         Ev glusterfs_list_peers (Val (Some ["two"; "three"]))]
    ∧ status_of ret [gethostbyname "two"; network_ip_addrs; glusterfs_list_peers]
      = Unchanged
    ∧ comment_of ret = "Host " ++ "two" ++ " already peered"
    ∧ has_changes ret = false.
Proof.
  eapply (peered_already_peered scripted
            [AStr "10.0.0.2"; AStrs ["10.0.0.1"]; APeers (Some ["two"; "three"])]).
  - reflexivity.
  - reflexivity.
  - closed_fact.
  - reflexivity.
  - closed_fact.
Defined.

(** For a well-formed name that is neither local nor peered, [peered] under
    the test flag returns [None] with the comment that the peer will be
    added, after the three queries; without the flag it takes the peer action
    and, when that reports failure, returns [False] with the comment to check
    the logs, without listing the peers again. *)
Theorem peered_pending {W} (h : handler W) (w w1 w2 w3 : W) name
    addr addrs peers :
  h (gethostbyname name) w = (Val addr, w1) →
  h network_ip_addrs w1 = (Val addrs, w2) →
  addr ∉ addrs →
  h glusterfs_list_peers w2 = (Val peers, w3) →
  name_in_peers name peers = false →
  check_name name "a-zA-Z0-9._-" = false →
  (∃ ret,
     run h (peered dry name) w
     = Ran (Val ret) w3
         [Ev (gethostbyname name) (Val addr); Ev network_ip_addrs (Val addrs);
          Ev glusterfs_list_peers (Val peers)]
     ∧ status_of ret [gethostbyname name; network_ip_addrs; glusterfs_list_peers]
       = WouldChange
     ∧ comment_of ret = "Peer " ++ name ++ " will be added."
     ∧ has_changes ret = false)
  ∧ (∀ w4, h (glusterfs_peer name) w3 = (Val false, w4) →
     ∃ ret,
       run h (peered live name) w
       = Ran (Val ret) w4
           [Ev (gethostbyname name) (Val addr); Ev network_ip_addrs (Val addrs);
            Ev glusterfs_list_peers (Val peers);
            Ev (glusterfs_peer name) (Val false)]
       ∧ status_of ret
           [gethostbyname name; network_ip_addrs; glusterfs_list_peers;
            glusterfs_peer name] = Failed
       ∧ comment_of ret
         = "Failed to peer with " ++ name ++ ", please check logs for errors"
       ∧ has_changes ret = false).
Proof.
  intros H1 H2 Hloc H3 Hin Hok. split.
  - unfold peered. feed. rewrite (bool_decide_eq_false_2 _ Hloc). feed.
    rewrite Hin, andb_false_r, Hok. cbn [test dry]. unfold_run.
    eexists. split; [reflexivity | facts].
  - intros w4 H4. unfold peered. feed.
    rewrite (bool_decide_eq_false_2 _ Hloc). feed.
    rewrite Hin, andb_false_r, Hok. cbn [test live]. feed.
    cbn [negb]. unfold_run.
    eexists. split; [reflexivity | facts].
Qed.

Lemma peered_pending_witness :
  (∃ ret,
     run scripted (peered dry "two")
       [AStr "10.0.0.2"; AStrs ["10.0.0.1"]; APeers None; ABool false]
     = Ran (Val ret) [ABool false]
         [Ev (gethostbyname "two") (Val "10.0.0.2");
          Ev network_ip_addrs (Val ["10.0.0.1"]);
          Ev glusterfs_list_peers (Val None)]
     ∧ status_of ret [gethostbyname "two"; network_ip_addrs; glusterfs_list_peers]
       = WouldChange
     ∧ comment_of ret = "Peer " ++ "two" ++ " will be added."
     ∧ has_changes ret = false)
  ∧ (∃ ret,
       run scripted (peered live "two")
         [AStr "10.0.0.2"; AStrs ["10.0.0.1"]; APeers None; ABool false]
       = Ran (Val ret) []
           [Ev (gethostbyname "two") (Val "10.0.0.2");
            Ev network_ip_addrs (Val ["10.0.0.1"]);
            Ev glusterfs_list_peers (Val None);
            Ev (glusterfs_peer "two") (Val false)]
       ∧ status_of ret
           [gethostbyname "two"; network_ip_addrs; glusterfs_list_peers;
            glusterfs_peer "two"] = Failed
       ∧ comment_of ret
         = "Failed to peer with " ++ "two" ++ ", please check logs for errors"
       ∧ has_changes ret = false).
Proof.
  assert (Hloc : "10.0.0.2" ∉ ["10.0.0.1"]) by closed_fact.
  destruct (peered_pending scripted
              [AStr "10.0.0.2"; AStrs ["10.0.0.1"]; APeers None; ABool false]
              [AStrs ["10.0.0.1"]; APeers None; ABool false]
              [APeers None; ABool false] [ABool false]
              "two" "10.0.0.2" ["10.0.0.1"] None
              eq_refl eq_refl Hloc eq_refl eq_refl eq_refl) as [Hdry Hlive].
  split; [exact Hdry | exact (Hlive [] eq_refl)].
Defined.

(** When the peer action reports success and the peers listed after it hold
    the host, [peered] returns [True] with the comment that the host was
    peered, the peers seen before the action under old and the peers seen
    after it under new. *)
Theorem peered_converges {W} (h : handler W) (w w1 w2 w3 w4 w5 : W) name
    addr addrs peers newpeers :
  h (gethostbyname name) w = (Val addr, w1) →
  h network_ip_addrs w1 = (Val addrs, w2) →
  addr ∉ addrs →
  h glusterfs_list_peers w2 = (Val peers, w3) →
  name_in_peers name peers = false →
  check_name name "a-zA-Z0-9._-" = false →
  h (glusterfs_peer name) w3 = (Val true, w4) →
  h glusterfs_list_peers w4 = (Val (Some newpeers), w5) →
  name ∈ newpeers →
  ∃ ret,
    run h (peered live name) w
    = Ran (Val ret) w5
        [Ev (gethostbyname name) (Val addr); Ev network_ip_addrs (Val addrs);
         Ev glusterfs_list_peers (Val peers);
         Ev (glusterfs_peer name) (Val true);
         Ev glusterfs_list_peers (Val (Some newpeers))]
    ∧ status_of ret
        [gethostbyname name; network_ip_addrs; glusterfs_list_peers;
         glusterfs_peer name; glusterfs_list_peers] = Converged
    ∧ comment_of ret = "Host " ++ name ++ " successfully peered"
    ∧ changes_new ret = Some (PList newpeers)
    ∧ changes_old ret = Some (peers_val peers).
Proof.
  intros H1 H2 Hloc H3 Hin Hok H4 H5 Hnew. unfold peered. feed.
  rewrite (bool_decide_eq_false_2 _ Hloc). feed.
  rewrite Hin, andb_false_r, Hok. cbn [test live]. feed.
  cbn [negb]. feed.
  assert (Hp : (peers_truthy (Some newpeers)
                && name_in_peers name (Some newpeers))%bool = true).
  { cbn [peers_truthy name_in_peers]. rewrite (bool_decide_eq_true_2 _ Hnew).
    destruct newpeers; [inversion Hnew | reflexivity]. }
  rewrite Hp. unfold_run.
  eexists. split; [reflexivity | facts].
Qed.

Lemma peered_converges_witness :
  ∃ ret,
    run scripted (peered live "two")
      [AStr "10.0.0.2"; AStrs ["10.0.0.1"]; APeers (Some ["three"]); ABool true;
       APeers (Some ["three"; "two"])]
    = Ran (Val ret) []
        [Ev (gethostbyname "two") (Val "10.0.0.2");
         Ev network_ip_addrs (Val ["10.0.0.1"]);
         Ev glusterfs_list_peers (Val (Some ["three"]));
         Ev (glusterfs_peer "two") (Val true);
         Ev glusterfs_list_peers (Val (Some ["three"; "two"]))]
    ∧ status_of ret
        [gethostbyname "two"; network_ip_addrs; glusterfs_list_peers;
         glusterfs_peer "two"; glusterfs_list_peers] = Converged
    ∧ comment_of ret = "Host " ++ "two" ++ " successfully peered"
    ∧ changes_new ret = Some (PList ["three"; "two"])
    ∧ changes_old ret = Some (peers_val (Some ["three"])).
Proof.
  assert (Hloc : "10.0.0.2" ∉ ["10.0.0.1"]) by closed_fact.
  assert (Hnew : "two" ∈ ["three"; "two"]) by closed_fact.
  exact (peered_converges scripted
           [AStr "10.0.0.2"; AStrs ["10.0.0.1"]; APeers (Some ["three"]);
            ABool true; APeers (Some ["three"; "two"])]
           [AStrs ["10.0.0.1"]; APeers (Some ["three"]); ABool true;
            APeers (Some ["three"; "two"])]
           [APeers (Some ["three"]); ABool true; APeers (Some ["three"; "two"])]
           [ABool true; APeers (Some ["three"; "two"])]
           [APeers (Some ["three"; "two"])] []
           "two" "10.0.0.2" ["10.0.0.1"] (Some ["three"]) ["three"; "two"]
           eq_refl eq_refl Hloc eq_refl eq_refl eq_refl eq_refl eq_refl Hnew).
Defined.

Lemma peered_mismatch_failed_witness :
  ∃ ret,
    outcome_of peered_but_not_listed = Val ret
    ∧ status_of ret (calls peered_but_not_listed) = Failed
    ∧ has_changes ret = false
    ∧ comment_of ret =
        "Host " ++ "two"
        ++ " was successfully peered but did not appear in the list of peers".
Proof.
  assert (Hloc : "10.0.0.2" ∉ ["10.0.0.1"]) by closed_fact.
  exact (peered_mismatch_failed scripted
           [AStr "10.0.0.2"; AStrs ["10.0.0.1"]; APeers None; ABool true;
            APeers (Some ["three"])]
           [AStrs ["10.0.0.1"]; APeers None; ABool true; APeers (Some ["three"])]
           [APeers None; ABool true; APeers (Some ["three"])]
           [ABool true; APeers (Some ["three"])]
           [APeers (Some ["three"])] []
           "two" "10.0.0.2" ["10.0.0.1"] None (Some ["three"])
           eq_refl eq_refl Hloc eq_refl eq_refl eq_refl eq_refl eq_refl eq_refl).
Defined.

(** ** The paths of [started] *)

(** [started] decides on the one query of the volume info when the volume is
    absent (Failed, "does not exist"), already started (Unchanged, also under
    the test flag) or stopped under the test flag (WouldChange): no other
    call is made. *)
Theorem started_decided_by_query {W} (h : handler W) (w w1 : W) name m :
  h glusterfs_info w = (Val m, w1) →
  (m !! name = None →
   ∀ opts, ∃ ret,
     run h (started opts name) w = Ran (Val ret) w1 [Ev glusterfs_info (Val m)]
     ∧ status_of ret [glusterfs_info] = Failed
     ∧ comment_of ret = "Volume " ++ name ++ " does not exist"
     ∧ has_changes ret = false)
  ∧ (∀ v, m !! name = Some v → status v = 1 →
     ∀ opts, ∃ ret,
       run h (started opts name) w = Ran (Val ret) w1 [Ev glusterfs_info (Val m)]
       ∧ status_of ret [glusterfs_info] = Unchanged
       ∧ comment_of ret = "Volume " ++ name ++ " is already started"
       ∧ has_changes ret = false)
  ∧ (∀ v, m !! name = Some v → status v ≠ 1 →
     ∃ ret,
       run h (started dry name) w = Ran (Val ret) w1 [Ev glusterfs_info (Val m)]
       ∧ status_of ret [glusterfs_info] = WouldChange
       ∧ comment_of ret = "Volume " ++ name ++ " will be started"
       ∧ has_changes ret = false).
Proof.
  intros H1. split; [ | split].
  - intros Hm opts. unfold started. feed. rewrite Hm. unfold_run.
    eexists. split; [reflexivity | facts].
  - intros v Hm Hst opts. unfold started. feed. rewrite Hm, Hst.
    cbn [Z.eqb Pos.eqb]. unfold_run.
    eexists. split; [reflexivity | facts].
  - intros v Hm Hst. unfold started. feed. rewrite Hm.
    apply Z.eqb_neq in Hst. rewrite Hst. cbn [test dry]. unfold_run.
    eexists. split; [reflexivity | facts].
Qed.

Lemma started_decided_by_query_witness :
  (∃ ret,
     run scripted (started live "v1") [AInfo ∅]
     = Ran (Val ret) [] [Ev glusterfs_info (Val ∅)]
     ∧ status_of ret [glusterfs_info] = Failed
     ∧ comment_of ret = "Volume " ++ "v1" ++ " does not exist"
     ∧ has_changes ret = false)
  ∧ (∃ ret,
       run scripted (started dry "v1") [AInfo {[ "v1" := vol 1 both_bricks ]}]
       = Ran (Val ret) [] [Ev glusterfs_info (Val {[ "v1" := vol 1 both_bricks ]})]
       ∧ status_of ret [glusterfs_info] = Unchanged
       ∧ comment_of ret = "Volume " ++ "v1" ++ " is already started"
       ∧ has_changes ret = false)
  ∧ (∃ ret,
       run scripted (started dry "v1") [AInfo {[ "v1" := vol 0 both_bricks ]}]
       = Ran (Val ret) [] [Ev glusterfs_info (Val {[ "v1" := vol 0 both_bricks ]})]
       ∧ status_of ret [glusterfs_info] = WouldChange
       ∧ comment_of ret = "Volume " ++ "v1" ++ " will be started"
       ∧ has_changes ret = false).
Proof.
  split; [ | split].
  - apply (proj1 (started_decided_by_query scripted [AInfo ∅] [] "v1" ∅ eq_refl)).
    vm_compute; reflexivity.
  - apply (proj1 (proj2 (started_decided_by_query scripted
                           [AInfo {[ "v1" := vol 1 both_bricks ]}] [] "v1"
                           {[ "v1" := vol 1 both_bricks ]} eq_refl))
             (vol 1 both_bricks)).
    + vm_compute; reflexivity.
    + reflexivity.
  - apply (proj2 (proj2 (started_decided_by_query scripted
                           [AInfo {[ "v1" := vol 0 both_bricks ]}] [] "v1"
                           {[ "v1" := vol 0 both_bricks ]} eq_refl))
             (vol 0 both_bricks)).
    + vm_compute; reflexivity.
    + discriminate.
Defined.

(** When the start action reports failure, [started] returns [False] with
    the fixed comment "Failed to start volume", which does not name the
    volume, and with neither changes nor a change key. *)
Theorem started_start_fails {W} (h : handler W) (w w1 w2 : W) name m v :
  h glusterfs_info w = (Val m, w1) →
  m !! name = Some v → status v ≠ 1 →
  h (glusterfs_start_volume name) w1 = (Val false, w2) →
  ∃ ret,
    run h (started live name) w
    = Ran (Val ret) w2
        [Ev glusterfs_info (Val m); Ev (glusterfs_start_volume name) (Val false)]
    ∧ status_of ret [glusterfs_info; glusterfs_start_volume name] = Failed
    ∧ comment_of ret = "Failed to start volume"
    ∧ has_changes ret = false
    ∧ ret !! "change" = None.
Proof.
  intros H1 Hm Hst H2. unfold started. feed. rewrite Hm.
  apply Z.eqb_neq in Hst. rewrite Hst. cbn [test live]. feed.
  eexists. split; [reflexivity | facts].
Qed.

Lemma started_start_fails_witness :
  ∃ ret,
    run scripted (started live "v1")
      [AInfo {[ "v1" := vol 0 both_bricks ]}; ABool false]
    = Ran (Val ret) []
        [Ev glusterfs_info (Val {[ "v1" := vol 0 both_bricks ]});
         Ev (glusterfs_start_volume "v1") (Val false)]
    ∧ status_of ret [glusterfs_info; glusterfs_start_volume "v1"] = Failed
    ∧ comment_of ret = "Failed to start volume"
    ∧ has_changes ret = false
    ∧ ret !! "change" = None.
Proof.
  apply (started_start_fails scripted
           [AInfo {[ "v1" := vol 0 both_bricks ]}; ABool false] [ABool false] []
           "v1" {[ "v1" := vol 0 both_bricks ]} (vol 0 both_bricks)).
  - reflexivity.
  - vm_compute; reflexivity.
  - discriminate.
  - reflexivity.
Defined.

(** ** The paths of [add_volume_bricks] *)

(** The add action is never attempted on a volume that is absent or not
    started, nor when every requested brick is present: if an action was
    taken, the first call was the query of the volume info, and it showed the
    volume started and short of a requested brick. *)
Theorem add_volume_bricks_acts_when_due {W} (h : handler W) (w : W) opts name
    bricks :
  add_was_due name bricks (run h (add_volume_bricks opts name bricks) w).
Proof.
  unfold add_was_due, add_volume_bricks. explore.
  all: intros Hact; try (vm_compute in Hact; discriminate Hact).
  all: eexists _, _; split; [reflexivity | ].
  all: split; [eassumption | ].
  all: match goal with
       | H : negb (status _ =? 1) = false |- _ =>
         apply negb_false_iff, Z.eqb_eq in H
       end.
  all: split; [assumption | ].
  all: intros Hsub; apply bricks_present_spec in Hsub;
    unfold bricks_present in Hsub; congruence.
Qed.

Lemma add_volume_bricks_acts_when_due_witness :
  ∃ m v,
    head (trace_of bricks_not_added) = Some (Ev glusterfs_info (Val m))
    ∧ m !! "v1" = Some v
    ∧ status v = 1
    ∧ ¬ (∀ p, p ∈ both_bricks → p ∈ brick_paths v).
Proof.
  apply (add_volume_bricks_acts_when_due scripted
           [AInfo {[ "v1" := vol 1 ["h1:/b1"] ]}; ABool true;
            AInfo {[ "v1" := vol 1 ["h1:/b1"] ]}] live "v1" both_bricks).
  vm_compute; reflexivity.
Defined.

(** On an absent volume and on a volume that is not started,
    [add_volume_bricks] returns [False] with a comment that says which, after
    the one query.  When the add action reports failure it returns [False]
    with the comment that adding failed, without a second query. *)
Theorem add_volume_bricks_fails {W} (h : handler W) (w w1 : W) opts name
    bricks m :
  h glusterfs_info w = (Val m, w1) →
  (m !! name = None →
   ∃ ret,
     run h (add_volume_bricks opts name bricks) w
     = Ran (Val ret) w1 [Ev glusterfs_info (Val m)]
     ∧ status_of ret [glusterfs_info] = Failed
     ∧ comment_of ret
       = "Volume " ++ name ++ " does not exist, cannot add bricks into it"
     ∧ has_changes ret = false)
  ∧ (∀ v, m !! name = Some v → status v ≠ 1 →
     ∃ ret,
       run h (add_volume_bricks opts name bricks) w
       = Ran (Val ret) w1 [Ev glusterfs_info (Val m)]
       ∧ status_of ret [glusterfs_info] = Failed
       ∧ comment_of ret
         = "Volume " ++ name ++ " is not started, cannot add bricks into it"
       ∧ has_changes ret = false)
  ∧ (∀ v w2, m !! name = Some v → status v = 1 →
     ¬ (∀ p, p ∈ bricks → p ∈ brick_paths v) →
     h (glusterfs_add_volume_bricks name bricks) w1 = (Val false, w2) →
     ∃ ret,
       run h (add_volume_bricks opts name bricks) w
       = Ran (Val ret) w2
           [Ev glusterfs_info (Val m);
            Ev (glusterfs_add_volume_bricks name bricks) (Val false)]
       ∧ status_of ret [glusterfs_info; glusterfs_add_volume_bricks name bricks]
         = Failed
       ∧ comment_of ret = "Adding bricks to volume " ++ name ++ " failed"
       ∧ has_changes ret = false).
Proof.
  intros H1. split; [ | split].
  - intros Hm. unfold add_volume_bricks. feed. rewrite Hm. unfold_run.
    eexists. split; [reflexivity | facts].
  - intros v Hm Hst. unfold add_volume_bricks. feed. rewrite Hm.
    apply Z.eqb_neq in Hst. rewrite Hst. cbn [negb]. unfold_run.
    eexists. split; [reflexivity | facts].
  - intros v w2 Hm Hst Hsub H2.
    assert (Hp : bricks_present bricks (brick_paths v) = false).
    { destruct (bricks_present bricks (brick_paths v)) eqn:E; [ | reflexivity].
      destruct Hsub. apply bricks_present_spec, E. }
    unfold bricks_present in Hp.
    unfold add_volume_bricks. feed. rewrite Hm, Hst.
    cbn [Z.eqb Pos.eqb negb]. rewrite Hp. feed.
    eexists. split; [reflexivity | facts].
Qed.

Lemma add_volume_bricks_fails_witness :
  (∃ ret,
     run scripted (add_volume_bricks live "v1" both_bricks) [AInfo ∅]
     = Ran (Val ret) [] [Ev glusterfs_info (Val ∅)]
     ∧ status_of ret [glusterfs_info] = Failed
     ∧ comment_of ret
       = "Volume " ++ "v1" ++ " does not exist, cannot add bricks into it"
     ∧ has_changes ret = false)
  ∧ (∃ ret,
       run scripted (add_volume_bricks live "v1" both_bricks)
         [AInfo {[ "v1" := vol 0 ["h1:/b1"] ]}]
       = Ran (Val ret) [] [Ev glusterfs_info (Val {[ "v1" := vol 0 ["h1:/b1"] ]})]
       ∧ status_of ret [glusterfs_info] = Failed
       ∧ comment_of ret
         = "Volume " ++ "v1" ++ " is not started, cannot add bricks into it"
       ∧ has_changes ret = false)
  ∧ (∃ ret,
       run scripted (add_volume_bricks live "v1" both_bricks)
         [AInfo {[ "v1" := vol 1 ["h1:/b1"] ]}; ABool false]
       = Ran (Val ret) []
           [Ev glusterfs_info (Val {[ "v1" := vol 1 ["h1:/b1"] ]});
            Ev (glusterfs_add_volume_bricks "v1" both_bricks) (Val false)]
       ∧ status_of ret [glusterfs_info; glusterfs_add_volume_bricks "v1" both_bricks]
         = Failed
       ∧ comment_of ret = "Adding bricks to volume " ++ "v1" ++ " failed"
       ∧ has_changes ret = false).
Proof.
  split; [ | split].
  - apply (proj1 (add_volume_bricks_fails scripted [AInfo ∅] [] live "v1"
                    both_bricks ∅ eq_refl)).
    vm_compute; reflexivity.
  - apply (proj1 (proj2 (add_volume_bricks_fails scripted
                           [AInfo {[ "v1" := vol 0 ["h1:/b1"] ]}] [] live "v1"
                           both_bricks {[ "v1" := vol 0 ["h1:/b1"] ]} eq_refl))
             (vol 0 ["h1:/b1"])).
    + vm_compute; reflexivity.
    + discriminate.
  - apply (proj2 (proj2 (add_volume_bricks_fails scripted
                           [AInfo {[ "v1" := vol 1 ["h1:/b1"] ]}; ABool false]
                           [ABool false] live "v1"
                           both_bricks {[ "v1" := vol 1 ["h1:/b1"] ]} eq_refl))
             (vol 1 ["h1:/b1"]) []).
    + vm_compute; reflexivity.
    + reflexivity.
    + intros Hsub.
      assert (Hin : "h2:/b2" ∈ brick_paths (vol 1 ["h1:/b1"])).
      { apply Hsub. apply list_elem_of_further, list_elem_of_here. }
      apply list_elem_of_singleton in Hin. discriminate Hin.
    + reflexivity.
Defined.

(** The requested bricks are compared with the current ones as sets of path
    strings: two requests with the same paths, in any order and with any
    repetition, against two brick lists with the same paths, are both found
    present or both found missing. *)
Theorem bricks_compared_as_sets (bricks bricks' current current' : list string) :
  (∀ p, p ∈ bricks ↔ p ∈ bricks') →
  (∀ p, p ∈ current ↔ p ∈ current') →
  bricks_present bricks current = bricks_present bricks' current'.
Proof.
  intros Hb Hc.
  destruct (bricks_present bricks current) eqn:E1;
    destruct (bricks_present bricks' current') eqn:E2; try reflexivity.
  - pose proof (proj1 (bricks_present_spec _ _) E1) as Hsub.
    assert (E : bricks_present bricks' current' = true).
    { apply bricks_present_spec. intros p Hp. apply Hc, Hsub, Hb, Hp. }
    congruence.
  - pose proof (proj1 (bricks_present_spec _ _) E2) as Hsub.
    assert (E : bricks_present bricks current = true).
    { apply bricks_present_spec. intros p Hp. apply Hc, Hsub, Hb, Hp. }
    congruence.
Qed.

Lemma bricks_compared_as_sets_witness :
  bricks_present ["h2:/b2"; "h1:/b1"; "h2:/b2"] ["h1:/b1"; "h2:/b2"]
  = bricks_present ["h1:/b1"; "h2:/b2"] ["h2:/b2"; "h1:/b1"].
Proof.
  apply bricks_compared_as_sets.
  - intros p. rewrite !elem_of_cons. rewrite !elem_of_nil. tauto.
  - intros p. rewrite !elem_of_cons. rewrite !elem_of_nil. tauto.
Defined.

(** ** The paths of [volume_present] *)

(** Without a start request [volume_present] neither queries the volume info
    nor takes the start action, whatever the collaborators answer. *)
Theorem volume_present_without_start {W} (h : handler W) (w : W) opts name
    bricks stripe replica device_vg transport force :
  existsb start_phase_call
    (calls (run h (volume_present opts name bricks stripe replica device_vg
                     transport false force) w)) = false.
Proof.
  apply never_calls_run. unfold volume_present.
  destruct (check_name name "a-zA-Z0-9._-"); [exact I | ].
  cbn [never_calls]. split; [reflexivity | intros volumes].
  destruct (negb (bool_decide (name ∈ volumes))); [ | exact I].
  destruct (test opts); [exact I | ].
  cbn [never_calls]. split; [reflexivity | intros vol_created].
  destruct (negb vol_created); [exact I | ].
  cbn [never_calls]. split; [reflexivity | intros volumes'].
  exact I.
Qed.

(** For a well-formed name of a volume that is not listed: under the test
    flag [volume_present] returns [None] after the one query, with the
    comment that the volume will be created, "and started" added exactly when
    start is requested; without the flag, when the create action reports
    failure, it returns [False] with the comment that the creation failed,
    and makes no further call even if start is requested. *)
Theorem volume_present_absent {W} (h : handler W) (w w1 : W) name bricks
    stripe replica device_vg transport start force old :
  check_name name "a-zA-Z0-9._-" = false →
  h glusterfs_list_volumes w = (Val old, w1) →
  name ∉ old →
  (∃ ret,
     run h (volume_present dry name bricks stripe replica device_vg transport
              start force) w
     = Ran (Val ret) w1 [Ev glusterfs_list_volumes (Val old)]
     ∧ status_of ret [glusterfs_list_volumes] = WouldChange
     ∧ comment_of ret
       = (if start then ("Volume " ++ name ++ " will be created") ++ " and started"
          else "Volume " ++ name ++ " will be created")
     ∧ has_changes ret = false)
  ∧ (∀ w2,
       h (glusterfs_create_volume name bricks stripe replica device_vg
            transport start force) w1 = (Val false, w2) →
       ∃ ret,
         run h (volume_present live name bricks stripe replica device_vg
                  transport start force) w
         = Ran (Val ret) w2
             [Ev glusterfs_list_volumes (Val old);
              Ev (glusterfs_create_volume name bricks stripe replica device_vg
                    transport start force) (Val false)]
         ∧ status_of ret
             [glusterfs_list_volumes;
              glusterfs_create_volume name bricks stripe replica device_vg
                transport start force] = Failed
         ∧ comment_of ret
           = "Creation of volume " ++ name
             ++ " failed. Check logs for further information"
         ∧ has_changes ret = false).
Proof.
  intros Hok H1 Hout. split.
  - unfold volume_present. rewrite Hok. feed.
    rewrite (bool_decide_eq_false_2 _ Hout). cbn [negb test dry]. unfold_run.
    eexists. split; [reflexivity | ].
    destruct start; facts.
  - intros w2 H2. unfold volume_present. rewrite Hok. feed.
    rewrite (bool_decide_eq_false_2 _ Hout). cbn [negb test live]. feed.
    cbn [negb]. unfold_run.
    eexists. split; [reflexivity | facts].
Qed.

Lemma volume_present_absent_witness :
  (∃ ret,
     run scripted
       (volume_present dry "v1" both_bricks None None false "tcp" true false)
       [AStrs ["v0"]; ABool false]
     = Ran (Val ret) [ABool false] [Ev glusterfs_list_volumes (Val ["v0"])]
     ∧ status_of ret [glusterfs_list_volumes] = WouldChange
     ∧ comment_of ret
       = (if true then ("Volume " ++ "v1" ++ " will be created") ++ " and started"
          else "Volume " ++ "v1" ++ " will be created")
     ∧ has_changes ret = false)
  ∧ (∃ ret,
       run scripted
         (volume_present live "v1" both_bricks None None false "tcp" true false)
         [AStrs ["v0"]; ABool false]
       = Ran (Val ret) []
           [Ev glusterfs_list_volumes (Val ["v0"]);
            Ev (glusterfs_create_volume "v1" both_bricks None None false "tcp"
                  true false) (Val false)]
       ∧ status_of ret
           [glusterfs_list_volumes;
            glusterfs_create_volume "v1" both_bricks None None false "tcp"
              true false] = Failed
       ∧ comment_of ret
         = "Creation of volume " ++ "v1"
           ++ " failed. Check logs for further information"
       ∧ has_changes ret = false).
Proof.
  assert (Hout : "v1" ∉ ["v0"]) by closed_fact.
  destruct (volume_present_absent scripted [AStrs ["v0"]; ABool false]
              [ABool false] "v1" both_bricks None None false "tcp" true false
              ["v0"] eq_refl eq_refl Hout) as [Hdry Hlive].
  split; [exact Hdry | exact (Hlive [] eq_refl)].
Defined.

(** Without a start request: a volume that is listed is left alone,
    [volume_present] returns [True] with the comment that it already exists
    after the one query, whatever the test flag; a volume that is not listed
    is created, and when the create action reports success and the volumes
    listed after it hold the volume, the result is [True] with the comment
    that the volume is created, the volumes listed before under old and those
    listed after under new. *)
Theorem volume_present_no_start {W} (h : handler W) (w w1 : W) name bricks
    stripe replica device_vg transport force vols :
  check_name name "a-zA-Z0-9._-" = false →
  h glusterfs_list_volumes w = (Val vols, w1) →
  (name ∈ vols →
   ∀ opts, ∃ ret,
     run h (volume_present opts name bricks stripe replica device_vg transport
              false force) w
     = Ran (Val ret) w1 [Ev glusterfs_list_volumes (Val vols)]
     ∧ status_of ret [glusterfs_list_volumes] = Unchanged
     ∧ comment_of ret = "Volume " ++ name ++ " already exists"
     ∧ has_changes ret = false)
  ∧ (∀ w2 w3 vols',
       name ∉ vols →
       h (glusterfs_create_volume name bricks stripe replica device_vg
            transport false force) w1 = (Val true, w2) →
       h glusterfs_list_volumes w2 = (Val vols', w3) →
       name ∈ vols' →
       ∃ ret,
         run h (volume_present live name bricks stripe replica device_vg
                  transport false force) w
         = Ran (Val ret) w3
             [Ev glusterfs_list_volumes (Val vols);
              Ev (glusterfs_create_volume name bricks stripe replica device_vg
                    transport false force) (Val true);
              Ev glusterfs_list_volumes (Val vols')]
         ∧ status_of ret
             [glusterfs_list_volumes;
              glusterfs_create_volume name bricks stripe replica device_vg
                transport false force;
              glusterfs_list_volumes] = Converged
         ∧ comment_of ret = "Volume " ++ name ++ " is created"
         ∧ changes_new ret = Some (PList vols')
         ∧ changes_old ret = Some (PList vols)).
Proof.
  intros Hok H1. split.
  - intros Hin opts. unfold volume_present. rewrite Hok. feed.
    rewrite (bool_decide_eq_true_2 _ Hin). cbn [negb].
    unfold volume_present_start. unfold_run.
    eexists. split; [reflexivity | facts].
  - intros w2 w3 vols' Hout H2 H3 Hin.
    unfold volume_present. rewrite Hok. feed.
    rewrite (bool_decide_eq_false_2 _ Hout). cbn [negb test live]. feed.
    cbn [negb]. feed. rewrite (bool_decide_eq_true_2 _ Hin).
    unfold volume_present_start. unfold_run.
    eexists. split; [reflexivity | facts].
Qed.

Lemma volume_present_no_start_witness :
  (∃ ret,
     run scripted
       (volume_present dry "v1" both_bricks None None false "tcp" false false)
       [AStrs ["v1"]]
     = Ran (Val ret) [] [Ev glusterfs_list_volumes (Val ["v1"])]
     ∧ status_of ret [glusterfs_list_volumes] = Unchanged
     ∧ comment_of ret = "Volume " ++ "v1" ++ " already exists"
     ∧ has_changes ret = false)
  ∧ (∃ ret,
       run scripted
         (volume_present live "v1" both_bricks None None false "tcp" false false)
         [AStrs []; ABool true; AStrs ["v1"]]
       = Ran (Val ret) []
           [Ev glusterfs_list_volumes (Val []);
            Ev (glusterfs_create_volume "v1" both_bricks None None false "tcp"
                  false false) (Val true);
            Ev glusterfs_list_volumes (Val ["v1"])]
       ∧ status_of ret
           [glusterfs_list_volumes;
            glusterfs_create_volume "v1" both_bricks None None false "tcp"
              false false;
            glusterfs_list_volumes] = Converged
       ∧ comment_of ret = "Volume " ++ "v1" ++ " is created"
       ∧ changes_new ret = Some (PList ["v1"])
       ∧ changes_old ret = Some (PList [])).
Proof.
  assert (Hin : "v1" ∈ ["v1"]) by closed_fact.
  assert (Hout : "v1" ∉ ([] : list string)) by closed_fact.
  split.
  - exact (proj1 (volume_present_no_start scripted [AStrs ["v1"]] [] "v1"
                    both_bricks None None false "tcp" false ["v1"]
                    eq_refl eq_refl) Hin dry).
  - exact (proj2 (volume_present_no_start scripted
                    [AStrs []; ABool true; AStrs ["v1"]]
                    [ABool true; AStrs ["v1"]] "v1"
                    both_bricks None None false "tcp" false []
                    eq_refl eq_refl)
             [AStrs ["v1"]] [] ["v1"] Hout eq_refl eq_refl Hin).
Defined.

(** With start requested and the test flag off, on a volume that the volume
    info shows stopped: a listed volume whose start action reports success
    gives [True] with the changes from "stopped" to "started" and the comment
    "... already exists and is now started"; when the start action reports
    failure it gives [False] with "... but failed to start. Check logs for
    further information" and no changes; a volume created and listed in this
    call whose start action reports success gives [True] with "... is created
    and is now started", and keeps the volume lists of the creation as its
    changes. *)
Theorem volume_present_starts {W} (h : handler W) name bricks
    stripe replica device_vg transport force :
  check_name name "a-zA-Z0-9._-" = false →
  (∀ w w1 w2 w3 vols m v b,
     h glusterfs_list_volumes w = (Val vols, w1) → name ∈ vols →
     h glusterfs_info w1 = (Val m, w2) → m !! name = Some v → status v ≠ 1 →
     h (glusterfs_start_volume name) w2 = (Val b, w3) →
     ∃ ret,
       run h (volume_present live name bricks stripe replica device_vg
                transport true force) w
       = Ran (Val ret) w3
           [Ev glusterfs_list_volumes (Val vols); Ev glusterfs_info (Val m);
            Ev (glusterfs_start_volume name) (Val b)]
       ∧ if b then
           status_of ret
             [glusterfs_list_volumes; glusterfs_info; glusterfs_start_volume name]
           = Converged
           ∧ comment_of ret
             = ("Volume " ++ name ++ " already exists") ++ " and is now started"
           ∧ changes_new ret = Some (PStr "started")
           ∧ changes_old ret = Some (PStr "stopped")
         else
           status_of ret
             [glusterfs_list_volumes; glusterfs_info; glusterfs_start_volume name]
           = Failed
           ∧ comment_of ret
             = ("Volume " ++ name ++ " already exists")
               ++ " but failed to start. Check logs for further information"
           ∧ has_changes ret = false)
  ∧ (∀ w w1 w2 w3 w4 w5 old vols m v,
       h glusterfs_list_volumes w = (Val old, w1) → name ∉ old →
       h (glusterfs_create_volume name bricks stripe replica device_vg
            transport true force) w1 = (Val true, w2) →
       h glusterfs_list_volumes w2 = (Val vols, w3) → name ∈ vols →
       h glusterfs_info w3 = (Val m, w4) → m !! name = Some v → status v ≠ 1 →
       h (glusterfs_start_volume name) w4 = (Val true, w5) →
       ∃ ret,
         run h (volume_present live name bricks stripe replica device_vg
                  transport true force) w
         = Ran (Val ret) w5
             [Ev glusterfs_list_volumes (Val old);
              Ev (glusterfs_create_volume name bricks stripe replica device_vg
                    transport true force) (Val true);
              Ev glusterfs_list_volumes (Val vols);
              Ev glusterfs_info (Val m);
              Ev (glusterfs_start_volume name) (Val true)]
         ∧ ret !! "result" = Some py_true
         ∧ comment_of ret
           = ("Volume " ++ name ++ " is created") ++ " and is now started"
         ∧ changes_new ret = Some (PList vols)
         ∧ changes_old ret = Some (PList old)).
Proof.
  intros Hok. split.
  - intros w w1 w2 w3 vols m v b H1 Hin H2 Hm Hst H3.
    unfold volume_present. rewrite Hok. feed.
    rewrite (bool_decide_eq_true_2 _ Hin). cbn [negb].
    unfold volume_present_start. cbn [test live]. feed. rewrite Hm.
    apply Z.eqb_neq in Hst. rewrite Hst. feed.
    destruct b; unfold_run.
    + eexists. split; [reflexivity | facts].
    + eexists. split; [reflexivity | facts].
  - intros w w1 w2 w3 w4 w5 old vols m v H1 Hout H2 H3 Hin H4 Hm Hst H5.
    unfold volume_present. rewrite Hok. feed.
    rewrite (bool_decide_eq_false_2 _ Hout). cbn [negb test live]. feed.
    cbn [negb]. feed. rewrite (bool_decide_eq_true_2 _ Hin).
    unfold volume_present_start. cbn [test live]. feed. rewrite Hm.
    apply Z.eqb_neq in Hst. rewrite Hst. feed.
    eexists. split; [reflexivity | facts].
Qed.

Lemma volume_present_starts_witness :
  (∃ ret,
     run scripted
       (volume_present live "v1" both_bricks None None false "tcp" true false)
       [AStrs ["v1"]; AInfo {[ "v1" := vol 0 both_bricks ]}; ABool true]
     = Ran (Val ret) []
         [Ev glusterfs_list_volumes (Val ["v1"]);
          Ev glusterfs_info (Val {[ "v1" := vol 0 both_bricks ]});
          Ev (glusterfs_start_volume "v1") (Val true)]
     ∧ status_of ret
         [glusterfs_list_volumes; glusterfs_info; glusterfs_start_volume "v1"]
       = Converged
     ∧ comment_of ret
       = ("Volume " ++ "v1" ++ " already exists") ++ " and is now started"
     ∧ changes_new ret = Some (PStr "started")
     ∧ changes_old ret = Some (PStr "stopped"))
  ∧ (∃ ret,
       run scripted
         (volume_present live "v1" both_bricks None None false "tcp" true false)
         [AStrs []; ABool true; AStrs ["v1"];
          AInfo {[ "v1" := vol 0 both_bricks ]}; ABool true]
       = Ran (Val ret) []
           [Ev glusterfs_list_volumes (Val []);
            Ev (glusterfs_create_volume "v1" both_bricks None None false "tcp"
                  true false) (Val true);
            Ev glusterfs_list_volumes (Val ["v1"]);
            Ev glusterfs_info (Val {[ "v1" := vol 0 both_bricks ]});
            Ev (glusterfs_start_volume "v1") (Val true)]
       ∧ ret !! "result" = Some py_true
       ∧ comment_of ret
         = ("Volume " ++ "v1" ++ " is created") ++ " and is now started"
       ∧ changes_new ret = Some (PList ["v1"])
       ∧ changes_old ret = Some (PList [])).
Proof.
  assert (Hok : check_name "v1" "a-zA-Z0-9._-" = false) by (vm_compute; reflexivity).
  assert (Hin : "v1" ∈ ["v1"]) by closed_fact.
  assert (Hout : "v1" ∉ ([] : list string)) by closed_fact.
  assert (Hm : ({[ "v1" := vol 0 both_bricks ]} : gmap string VolInfo) !! "v1"
               = Some (vol 0 both_bricks)) by (vm_compute; reflexivity).
  assert (Hst : status (vol 0 both_bricks) ≠ 1) by discriminate.
  destruct (volume_present_starts scripted "v1" both_bricks None None false
              "tcp" false Hok) as [Ha Hb].
  split.
  - exact (Ha [AStrs ["v1"]; AInfo {[ "v1" := vol 0 both_bricks ]}; ABool true]
              [AInfo {[ "v1" := vol 0 both_bricks ]}; ABool true]
              [ABool true] [] ["v1"] {[ "v1" := vol 0 both_bricks ]}
              (vol 0 both_bricks) true eq_refl Hin eq_refl Hm Hst eq_refl).
  - exact (Hb [AStrs []; ABool true; AStrs ["v1"];
               AInfo {[ "v1" := vol 0 both_bricks ]}; ABool true]
              [ABool true; AStrs ["v1"];
               AInfo {[ "v1" := vol 0 both_bricks ]}; ABool true]
              [AStrs ["v1"]; AInfo {[ "v1" := vol 0 both_bricks ]}; ABool true]
              [AInfo {[ "v1" := vol 0 both_bricks ]}; ABool true]
              [ABool true] [] [] ["v1"] {[ "v1" := vol 0 both_bricks ]}
              (vol 0 both_bricks)
              eq_refl Hout eq_refl eq_refl Hin eq_refl Hm Hst eq_refl).
Defined.

(** ** A fault of the deprecation warning *)

(** When the deprecation warning raises, [created] ends with that fault
    right there: [volume_present] is not entered and no other call is
    made. *)
Theorem created_warning_fault {W} (h : handler W) (w w' : W) e opts name bricks
    stripe replica device_vg transport start force :
  h created_warning w = (Exn e, w') →
  run h (created opts name bricks stripe replica device_vg transport start
           force) w
  = Ran (Exn e) w' [Ev created_warning (Exn e)].
Proof. intros Hwarn. unfold created. rewrite run_call, Hwarn. reflexivity. Qed.

(** * Properties of the SELinux execution module *)
Module SelinuxFacts.
Import Selinux.

Ltac sx :=
  cbn [run bind try_except perform check_cmds probe item
       outcome_of world_of memo_of trace_of calls map ev_call fst snd].

(** A program that returned, followed by another: the runs follow each
    other. *)
Lemma run_bind_ok {W A B} (h : handler W) (p : prog A) (f : A → prog B)
    (w w' : W) memo memo' a tr :
  run h p w memo = Ran (Ok a) w' memo' tr →
  run h (bind p f) w memo
  = Ran (outcome_of (run h (f a) w' memo')) (world_of (run h (f a) w' memo'))
      (memo_of (run h (f a) w' memo')) (tr ++ trace_of (run h (f a) w' memo')).
Proof.
  revert w memo tr.
  induction p as [a' | e | c k IH | k IH | v k IH]; intros w memo tr Hp.
  - cbn [run] in Hp. injection Hp as -> -> -> <-. cbn [bind].
    destruct (run h (f a) w' memo'); reflexivity.
  - discriminate Hp.
  - cbn [run bind] in Hp |- *. destruct (h c w) as [ans w1]. cbn [fst snd] in *.
    destruct (run h (k ans) w1 memo) as [o w2 m2 tr2] eqn:Hk.
    cbn [outcome_of world_of memo_of trace_of] in Hp.
    injection Hp as -> -> -> <-.
    rewrite (IH ans w1 memo tr2 Hk). reflexivity.
  - cbn [run bind] in Hp |- *. exact (IH memo w memo tr Hp).
  - cbn [run bind] in Hp |- *. exact (IH w (Some v) tr Hp).
Qed.

(** ** The listing loops *)

Lemma semod_lines_blank line rest ret :
  blank line = true → semod_lines (line :: rest) ret = semod_lines rest ret.
Proof.
  unfold blank. intros Hb. cbn [semod_lines]. rewrite Hb. reflexivity.
Qed.

Lemma semod_lines_entry line rest ret name e :
  blank line = false → semod_of (split line) = Some (name, e) →
  semod_lines (line :: rest) ret = semod_lines rest (<[name := e]> ret).
Proof.
  unfold blank. intros Hb He. cbn [semod_lines]. rewrite Hb. cbn [negb].
  destruct (split line) as [ | c0 [ | c1 comps]]; try discriminate He.
  unfold semod_of in He. revert He.
  destruct (bool_decide (length (c0 :: c1 :: comps) = 3%nat));
    intros He; injection He as <- <-; reflexivity.
Qed.

Lemma semod_lines_bad line rest ret :
  blank line = false → semod_of (split line) = None →
  semod_lines (line :: rest) ret
  = Raise (PyExn IndexError "list index out of range").
Proof.
  unfold blank. intros Hb He. cbn [semod_lines]. rewrite Hb. cbn [negb].
  destruct (split line) as [ | c0 [ | c1 comps]]; try discriminate He.
  - reflexivity.
  - reflexivity.
Qed.

Lemma semod_lines_filter lines ret :
  semod_lines lines ret
  = semod_lines (List.filter (fun line => negb (blank line)) lines) ret.
Proof.
  revert ret. induction lines as [ | line rest IH]; intros ret; [reflexivity | ].
  cbn [List.filter]. destruct (blank line) eqn:Hb; cbn [negb].
  - rewrite semod_lines_blank by exact Hb. apply IH.
  - destruct (semod_of (split line)) as [[name e] | ] eqn:He.
    + rewrite !(semod_lines_entry _ _ _ name e) by assumption. apply IH.
    + rewrite !semod_lines_bad by assumption. reflexivity.
Qed.

(** The loop over lines that all parse returns a dictionary whose entries
    are exactly those made of some line, on top of the ones it started
    with. *)
Lemma semod_lines_parsed lines ret :
  Forall (fun line => blank line = false ∧ is_Some (semod_of (split line))) lines →
  ∃ m, semod_lines lines ret = Return m
       ∧ (∀ name e, m !! name = Some e →
            ret !! name = Some e
            ∨ ∃ line, line ∈ lines ∧ semod_of (split line) = Some (name, e))
       ∧ (∀ name, is_Some (ret !! name) → is_Some (m !! name))
       ∧ (∀ line name e, line ∈ lines → semod_of (split line) = Some (name, e) →
            is_Some (m !! name)).
Proof.
  revert ret. induction lines as [ | line rest IH]; intros ret Hall.
  - exists ret. split; [reflexivity | ].
    split; [intros name e H; left; exact H | ].
    split; [intros name H; exact H | ].
    intros line name e Hin. inversion Hin.
  - inversion Hall as [ | ? ? [Hb [[name e] He]] Hrest]; subst.
    rewrite (semod_lines_entry _ _ _ name e) by assumption.
    destruct (IH (<[name := e]> ret) Hrest) as (m & Hm & Hsound & Hkeep & Hall').
    exists m. split; [exact Hm | ]. split; [ | split].
    + intros n' e' Hl. destruct (Hsound n' e' Hl) as [Hr | (l & Hl1 & Hl2)].
      * destruct (decide (name = n')) as [<- | Hne].
        -- rewrite lookup_insert_eq in Hr. injection Hr as <-.
           right. exists line. split; [apply list_elem_of_here | exact He].
        -- rewrite lookup_insert_ne in Hr by exact Hne. left. exact Hr.
      * right. exists l. split; [apply list_elem_of_further, Hl1 | exact Hl2].
    + intros n' Hn'. apply Hkeep.
      destruct (decide (name = n')) as [<- | Hne].
      * rewrite lookup_insert_eq. eauto.
      * rewrite lookup_insert_ne by exact Hne. exact Hn'.
    + intros l n' e' Hin Hl. apply elem_of_cons in Hin as [-> | Hin].
      * rewrite He in Hl. injection Hl as <- <-.
        apply Hkeep. rewrite lookup_insert_eq. eauto.
      * exact (Hall' l n' e' Hin Hl).
Qed.

(** A line that does not parse makes the loop raise, whatever the lines
    after it are. *)
Lemma semod_lines_fails lines ret :
  Exists (fun line => blank line = false ∧ semod_of (split line) = None) lines →
  semod_lines lines ret = Raise (PyExn IndexError "list index out of range").
Proof.
  revert ret. induction lines as [ | line rest IH]; intros ret Hex.
  - inversion Hex.
  - destruct (blank line) eqn:Hb.
    + rewrite semod_lines_blank by exact Hb. apply IH.
      inversion Hex as [? ? [Hb' _] | ]; subst; [congruence | assumption].
    + destruct (semod_of (split line)) as [[name e] | ] eqn:He.
      * rewrite (semod_lines_entry _ _ _ name e) by assumption. apply IH.
        inversion Hex as [? ? [_ He'] | ]; subst; [congruence | assumption].
      * apply semod_lines_bad; assumption.
Qed.

Lemma data_lines_not_blank out line :
  line ∈ data_lines out → blank line = false.
Proof.
  unfold data_lines. rewrite list_elem_of_In, filter_In.
  intros [_ H]. apply negb_true_iff in H. exact H.
Qed.

Lemma run_list_semod {W} (h : handler W) (w w' : W) memo out :
  h (cmd_run "semodule -l") w = (Ok out, w') →
  run h list_semod w memo
  = let r := run h (semod_lines (data_lines out) ∅) w' memo in
    Ran (outcome_of r) (world_of r) (memo_of r)
      (Ev (cmd_run "semodule -l") (Ok out) :: trace_of r).
Proof.
  intros H1. unfold list_semod, perform. cbn [run]. rewrite H1. cbn [fst snd].
  rewrite semod_lines_filter. reflexivity.
Qed.

(** [list_semod] skips the first line of the output of [semodule -l] and the
    blank lines.  When every other line has at least two fields, it returns a
    dictionary in which every entry is made of such a line (the first field
    is the key, the second the version, and the module counts as disabled
    exactly when the line has three fields) and every such line has its key
    in the dictionary.  When some line has a single field, the call raises
    [IndexError] and returns nothing. *)
Theorem list_semod_entries {W} (h : handler W) (w w' : W) memo out :
  h (cmd_run "semodule -l") w = (Ok out, w') →
  (Forall (fun line => is_Some (semod_of (split line))) (data_lines out) →
   ∃ m,
     run h list_semod w memo
     = Ran (Ok m) w' memo [Ev (cmd_run "semodule -l") (Ok out)]
     ∧ (∀ name e, m !! name = Some e →
          ∃ line, line ∈ data_lines out ∧ semod_of (split line) = Some (name, e))
     ∧ (∀ line name e, line ∈ data_lines out →
          semod_of (split line) = Some (name, e) → is_Some (m !! name)))
  ∧ (Exists (fun line => semod_of (split line) = None) (data_lines out) →
     run h list_semod w memo
     = Ran (Err (PyExn IndexError "list index out of range")) w' memo
         [Ev (cmd_run "semodule -l") (Ok out)]).
Proof.
  intros H1. rewrite (run_list_semod h w w' memo out H1). split.
  - intros Hall.
    assert (Hall' : Forall (fun line => blank line = false
                                        ∧ is_Some (semod_of (split line)))
                      (data_lines out)).
    { apply Forall_forall. intros line Hin. split.
      - apply (data_lines_not_blank out), Hin.
      - exact (proj1 (Forall_forall _ _) Hall line Hin). }
    destruct (semod_lines_parsed (data_lines out) ∅ Hall')
      as (m & Hm & Hsound & _ & Hcomplete).
    exists m. rewrite Hm. split; [reflexivity | ]. split; [ | exact Hcomplete].
    intros name e Hl. destruct (Hsound name e Hl) as [Hr | Hline].
    + rewrite lookup_empty in Hr. discriminate Hr.
    + exact Hline.
  - intros Hex.
    rewrite semod_lines_fails; [reflexivity | ].
    apply Exists_exists. apply Exists_exists in Hex as (line & Hin & Hbad).
    exists line. split; [exact Hin | ]. split; [ | exact Hbad].
    apply (data_lines_not_blank out), Hin.
Qed.

Lemma list_semod_entries_witness :
  (∃ m,
     run scripted list_semod [RStr semodule_output] None
     = Ran (Ok m) [] None [Ev (cmd_run "semodule -l") (Ok semodule_output)]
     ∧ (∀ name e, m !! name = Some e →
          ∃ line, line ∈ data_lines semodule_output
                  ∧ semod_of (split line) = Some (name, e))
     ∧ (∀ line name e, line ∈ data_lines semodule_output →
          semod_of (split line) = Some (name, e) → is_Some (m !! name)))
  ∧ run scripted list_semod [RStr semodule_output_short] None
    = Ran (Err (PyExn IndexError "list index out of range")) [] None
        [Ev (cmd_run "semodule -l") (Ok semodule_output_short)].
Proof.
  split.
  - apply (proj1 (list_semod_entries scripted [RStr semodule_output] [] None
                    semodule_output eq_refl)).
    apply (bool_decide_unpack _). vm_compute. exact I.
  - apply (proj2 (list_semod_entries scripted [RStr semodule_output_short] []
                    None semodule_output_short eq_refl)).
    apply (bool_decide_unpack _). vm_compute. exact I.
Defined.

(** [getsemod] gives the entry of a module that [list_semod] lists, made of
    a line whose first field is the module, and [{}] for a module that is the
    first field of no line. *)
Theorem getsemod_entry {W} (h : handler W) (w w' : W) memo out module :
  h (cmd_run "semodule -l") w = (Ok out, w') →
  Forall (fun line => is_Some (semod_of (split line))) (data_lines out) →
  ∃ r,
    run h (getsemod module) w memo
    = Ran (Ok r) w' memo [Ev (cmd_run "semodule -l") (Ok out)]
    ∧ (∀ e, r = Some e →
         ∃ line, line ∈ data_lines out
                 ∧ semod_of (split line) = Some (module, e))
    ∧ (r = None →
         ∀ line e, line ∈ data_lines out →
                   semod_of (split line) ≠ Some (module, e)).
Proof.
  intros H1 Hall.
  destruct (proj1 (list_semod_entries h w w' memo out H1) Hall)
    as (m & Hrun & Hsound & Hcomplete).
  exists (m !! module). split.
  - unfold getsemod. rewrite (run_bind_ok _ _ _ _ _ _ _ _ _ Hrun).
    cbn [run outcome_of world_of memo_of trace_of]. rewrite app_nil_r.
    reflexivity.
  - split.
    + intros e He. exact (Hsound module e He).
    + intros Hnone line e Hin Hline.
      destruct (Hcomplete line module e Hin Hline) as [e' He'].
      congruence.
Qed.

Lemma getsemod_entry_witness :
  ∃ r,
    run scripted (getsemod "zebra") [RStr semodule_output] None
    = Ran (Ok r) [] None [Ev (cmd_run "semodule -l") (Ok semodule_output)]
    ∧ (∀ e, r = Some e →
         ∃ line, line ∈ data_lines semodule_output
                 ∧ semod_of (split line) = Some ("zebra", e))
    ∧ (r = None →
         ∀ line e, line ∈ data_lines semodule_output →
                   semod_of (split line) ≠ Some ("zebra", e)).
Proof.
  apply (getsemod_entry scripted [RStr semodule_output] [] None semodule_output
           "zebra" eq_refl).
  apply (bool_decide_unpack _). vm_compute. exact I.
Defined.
End SelinuxFacts.
